(** * yasgui-plugin-geo: the Geo results plugin (geo-plugin.js)

    A shallow embedding of the plugin's column detection, geometry
    conversion, feature-collection builder and draw cycle, and the
    properties of the specification stated over it.

    Conventions of the embedding.
    - A JavaScript string is a [string]; one element stands for one UTF-16
      code unit, so [String.length] is the [length] property and
      [substring 0 n] is [substring(0, n)].
    - A row of [results.bindings] is a JavaScript object: the list of its own
      properties in [Object.keys] order.  A property read [o[k]] takes the own
      property when there is one and otherwise falls back to
      [Object.prototype].
    - A cell is the typed value of the SPARQL JSON results format: its
      [value] is always text, its [datatype] may be missing.
    - An expression that throws yields [Throw]; a method that throws leaves
      the plugin as it was at the point of the throw.
    - The [wellknown] parser and the members of [Object.prototype] belong to
      the host and are parameters.  Leaflet is represented by what the plugin
      asks of it: the layers added to the Results group, the bounds-fit and
      resize calls, the node appended to the results element and the
      callbacks left with [setTimeout].  The definitions whose name ends in
      [On] run the same methods with Leaflet's answers (a layer made or not,
      an error thrown) as further parameters. *)

From Stdlib Require Import String Ascii List ZArith Bool Arith Lia.
Import ListNotations.
Open Scope string_scope.
Set Warnings "-register-all".

(** ** JavaScript values and completions *)

Inductive jsval : Type :=
| JUndefined
| JNull
| JBool (b : bool)
| JNum (n : Z)
| JStr (s : string)
| JArr (elems : list jsval)
| JObj (props : list (string * jsval)).

Inductive JsError : Type :=
| TypeError
| HostError (msg : string).

Inductive outcome (A : Type) : Type :=
| Ok (a : A)
| Throw (e : JsError).

Arguments Ok {A} a.
Arguments Throw {A} e.

Definition obind {A B : Type} (c : outcome A) (k : A -> outcome B) : outcome B :=
  match c with
  | Ok a => k a
  | Throw e => Throw e
  end.

Notation "x <-- c ;; k" := (obind c (fun x => k))
  (at level 61, c at next level, right associativity).

(** [Array.prototype.map] with a callback that may throw: the elements are
    visited in order and the first throw ends the call. *)
Fixpoint mapO {A B : Type} (f : A -> outcome B) (l : list A) : outcome (list B) :=
  match l with
  | [] => Ok []
  | x :: l' =>
      y <-- f x ;;
      ys <-- mapO f l' ;;
      Ok (y :: ys)
  end.

(** [Array.prototype.filter] with a predicate that may throw. *)
Fixpoint filterO {A : Type} (f : A -> outcome bool) (l : list A) : outcome (list A) :=
  match l with
  | [] => Ok []
  | x :: l' =>
      b <-- f x ;;
      ys <-- filterO f l' ;;
      Ok (if b then x :: ys else ys)
  end.

(** [Array.prototype.join]. *)
Fixpoint join (sep : string) (l : list string) : string :=
  match l with
  | [] => ""
  | [x] => x
  | x :: l' => x ++ sep ++ join sep l'
  end.

(** ** Result sets *)

Record Cell : Type := mkCell {
  value : string;
  datatype : option string;
  lang : option string
}.

Definition Row : Type := list (string * Cell).

(** The property names every plain object inherits from [Object.prototype]. *)
Definition objectPrototypeKeys : list string :=
  [ "constructor"; "__defineGetter__"; "__defineSetter__"; "hasOwnProperty";
    "__lookupGetter__"; "__lookupSetter__"; "isPrototypeOf";
    "propertyIsEnumerable"; "toString"; "valueOf"; "__proto__";
    "toLocaleString" ].

Definition inList (k : string) (l : list string) : bool :=
  existsb (String.eqb k) l.

Fixpoint ownProperty {V : Type} (o : list (string * V)) (k : string) : option V :=
  match o with
  | [] => None
  | (k', v) :: o' => if String.eqb k k' then Some v else ownProperty o' k
  end.

(** [Object.keys(o)]. *)
Definition keys {V : Type} (o : list (string * V)) : list string := map fst o.

(** The result of the property read [item[k]] on a row. *)
Inductive Property : Type :=
| Own (c : Cell)
| Inherited
| Missing.

Definition getProperty (item : Row) (k : string) : Property :=
  match ownProperty item k with
  | Some c => Own c
  | None => if inList k objectPrototypeKeys then Inherited else Missing
  end.

(** [item[k].datatype]: reading a property of [undefined] throws; a member
    of [Object.prototype] has no [datatype]. *)
Definition datatypeOf (p : Property) : outcome (option string) :=
  match p with
  | Own c => Ok (datatype c)
  | Inherited => Ok None
  | Missing => Throw TypeError
  end.

(** [item[k].value]. *)
Definition valueOf (p : Property) : outcome jsval :=
  match p with
  | Own c => Ok (JStr (value c))
  | Inherited => Ok JUndefined
  | Missing => Throw TypeError
  end.

(** ** The conversion table *)

Definition wktLiteral : string := "http://www.opengis.net/ont/geosparql#wktLiteral".
Definition virtGeometry : string := "http://www.openlinksw.com/schemas/virtrdf#Geometry".
Definition geoJSONLiteral : string := "http://www.opengis.net/ont/geosparql#geoJSONLiteral".

Inductive Conversion : Type :=
| ParseWKT
| PassThrough
| ProtoMember (name : string).

Definition conversions : list (string * Conversion) :=
  [ (wktLiteral, ParseWKT);
    (virtGeometry, ParseWKT);
    (geoJSONLiteral, PassThrough) ].

(** A property key made from a value that may be [undefined]. *)
Definition toKey (dt : option string) : string :=
  match dt with
  | Some s => s
  | None => "undefined"
  end.

(** [conversions[dt]]: [None] stands for [undefined], the only falsy result. *)
Definition conversionsAt (dt : option string) : option Conversion :=
  match ownProperty conversions (toKey dt) with
  | Some f => Some f
  | None =>
      if inList (toKey dt) objectPrototypeKeys
      then Some (ProtoMember (toKey dt))
      else None
  end.

Definition emptyPoint : jsval :=
  JObj [ ("type", JStr "Point"); ("coordinates", JArr []) ].

(** ** Features *)

Record Feature : Type := mkFeature {
  f_type : string;
  properties : Row;
  geometry : jsval
}.

Record FeatureCollection : Type := mkFeatureCollection {
  fc_type : string;
  features : list Feature
}.

(** ** The host and the map surface *)

Record SparqlResults : Type := mkSparqlResults {
  bindings : option (list Row)
}.

(** [json.results] is the field [json_results]. *)
Record SparqlJson : Type := mkSparqlJson {
  json_results : option SparqlResults
}.

Record Parser : Type := mkParser {
  json : option SparqlJson
}.

Inductive Node : Type :=
| MapContainer
| HostNode (id : nat).

(** The YASR instance: the host builds the plugin with itself and the field
    is never assigned again, so [this.yasr] is always an object; its
    [results] may be missing.  [resultsEl] is given by its child nodes. *)
Record Yasr : Type := mkYasr {
  results : option Parser;
  resultsEl : list Node
}.

(** A geometry column descriptor, [{ colName, datatype }]. *)
Record Descriptor : Type := mkDescriptor {
  colName : string;
  colDatatype : option string
}.

(** One feature handed to [L.geoJson] with the popup [onEachFeature] binds
    to its layer. *)
Record Shape : Type := mkShape {
  shape_feature : Feature;
  popup : string
}.

Definition GeoJsonLayer : Type := list Shape.

(** One call [map.fitBounds(lg.getBounds(), { padding, maxZoom })]; the
    bounds are kept as the layers they were computed from. *)
Record FitBounds : Type := mkFitBounds {
  fit_layers : list GeoJsonLayer;
  padding : Z * Z;
  maxZoom : Z
}.

Record LeafletMap : Type := mkLeafletMap {
  zoom : Z;
  fitBoundsCalls : list FitBounds;
  invalidateSizeCalls : nat
}.

(** [container], [map] and [lg] are assigned together, on the first
    [updateMap], and never cleared. *)
Record Surface : Type := mkSurface {
  container : Node;
  leafletMap : LeafletMap;
  lg : list GeoJsonLayer
}.

(** The fields of a plugin instance; [timeouts] holds the delays of the
    callbacks it has left with [setTimeout] and that have not run. *)
Record GeoPlugin : Type := mkGeoPlugin {
  yasr : Yasr;
  priority : Z;
  label : string;
  geometryColumns : list Descriptor;
  surface : option Surface;
  timeouts : list Z
}.

Definition set_geometryColumns (cols : list Descriptor) (this : GeoPlugin) : GeoPlugin :=
  {| yasr := yasr this; priority := priority this; label := label this;
     geometryColumns := cols; surface := surface this;
     timeouts := timeouts this |}.

Definition set_surface (s : option Surface) (this : GeoPlugin) : GeoPlugin :=
  {| yasr := yasr this; priority := priority this; label := label this;
     geometryColumns := geometryColumns this; surface := s;
     timeouts := timeouts this |}.

Definition set_yasr (y : Yasr) (this : GeoPlugin) : GeoPlugin :=
  {| yasr := y; priority := priority this; label := label this;
     geometryColumns := geometryColumns this; surface := surface this;
     timeouts := timeouts this |}.

Definition set_timeouts (t : list Z) (this : GeoPlugin) : GeoPlugin :=
  {| yasr := yasr this; priority := priority this; label := label this;
     geometryColumns := geometryColumns this; surface := surface this;
     timeouts := t |}.

Definition set_lg (l : list GeoJsonLayer) (s : Surface) : Surface :=
  {| container := container s; leafletMap := leafletMap s; lg := l |}.

Definition set_leafletMap (m : LeafletMap) (s : Surface) : Surface :=
  {| container := container s; leafletMap := m; lg := lg s |}.

(** ** Methods: state and completion *)

Definition M (A : Type) : Type := GeoPlugin -> GeoPlugin * outcome A.

Definition ret {A : Type} (a : A) : M A := fun this => (this, Ok a).

Definition bind {A B : Type} (c : M A) (k : A -> M B) : M B :=
  fun this =>
    match c this with
    | (this', Ok a) => k a this'
    | (this', Throw e) => (this', Throw e)
    end.

Notation "x <- c ;; k" := (bind c (fun x => k))
  (at level 61, c at next level, right associativity).
Notation "c ;;; k" := (bind c (fun _ => k))
  (at level 61, right associativity).

Definition get : M GeoPlugin := fun this => (this, Ok this).

Definition modify (f : GeoPlugin -> GeoPlugin) : M unit :=
  fun this => (f this, Ok tt).

Definition lift {A : Type} (c : outcome A) : M A := fun this => (this, c).

(** [for (const x of l) body]. *)
Fixpoint forOf {A : Type} (body : A -> M unit) (l : list A) : M unit :=
  match l with
  | [] => ret tt
  | x :: l' => body x ;;; forOf body l'
  end.

(** A method call on [this.map] or [this.lg]: on an instance without a
    surface the receiver is [undefined] and the call throws. *)
Definition onSurface (f : Surface -> Surface) : M unit :=
  fun this =>
    match surface this with
    | Some s => (set_surface (Some (f s)) this, Ok tt)
    | None => (this, Throw TypeError)
    end.

Definition clearLayers : M unit := onSurface (set_lg []).

Definition addLayer (l : GeoJsonLayer) : M unit :=
  onSurface (fun s => set_lg (lg s ++ [l]) s).

(** [this.map.fitBounds(this.lg.getBounds(), { padding: [20, 20], maxZoom: 14 })]. *)
Definition fitBounds : M unit :=
  onSurface (fun s =>
    set_leafletMap
      {| zoom := zoom (leafletMap s);
         fitBoundsCalls :=
           fitBoundsCalls (leafletMap s)
           ++ [ {| fit_layers := lg s; padding := (20, 20)%Z; maxZoom := 14%Z |} ];
         invalidateSizeCalls := invalidateSizeCalls (leafletMap s) |} s).

Definition invalidateSize : M unit :=
  onSurface (fun s =>
    set_leafletMap
      {| zoom := zoom (leafletMap s);
         fitBoundsCalls := fitBoundsCalls (leafletMap s);
         invalidateSizeCalls := S (invalidateSizeCalls (leafletMap s)) |} s).

Definition nodeEqb (a b : Node) : bool :=
  match a, b with
  | MapContainer, MapContainer => true
  | HostNode i, HostNode j => Nat.eqb i j
  | _, _ => false
  end.

(** [parent.appendChild(n)]: a node that is already a child is moved to the
    end. *)
Definition appendChild (n : Node) (children : list Node) : list Node :=
  filter (fun c => negb (nodeEqb c n)) children ++ [n].

(** [this.yasr.resultsEl.appendChild(this.container)]. *)
Definition appendContainer : M unit :=
  fun this =>
    match surface this with
    | Some s =>
        (set_yasr {| results := results (yasr this);
                     resultsEl := appendChild (container s) (resultsEl (yasr this)) |}
                  this,
         Ok tt)
    | None => (this, Throw TypeError)
    end.

(** [setTimeout(callback, delay)]. *)
Definition setTimeout (delay : Z) : M unit :=
  modify (fun this => set_timeouts (timeouts this ++ [delay]) this).

(** The surface built by the first [updateMap]. *)
Definition newSurface : Surface :=
  {| container := MapContainer;
     leafletMap := {| zoom := 5; fitBoundsCalls := []; invalidateSizeCalls := 0%nat |};
     lg := [] |}.

(** [this.yasr?.results?.json?.results?.bindings]. *)
Definition optionalBindings (y : Yasr) : option (list Row) :=
  match results y with
  | None => None
  | Some r =>
      match json r with
      | None => None
      | Some j =>
          match json_results j with
          | None => None
          | Some s => bindings s
          end
      end
  end.

(** [x ?? d]. *)
Definition orElse {A : Type} (x : option A) (d : A) : A :=
  match x with
  | Some a => a
  | None => d
  end.

(** [bindings[0] ?? {}]. *)
Definition firstRow (bs : list Row) : Row :=
  orElse (nth_error bs 0) [].

(** The filter predicate of [updateColumns]:
    [dt && Object.keys(conversions).includes(dt)]. *)
Definition recognised (dt : option string) : bool :=
  match dt with
  | Some s => negb (String.eqb s "") && inList s (keys conversions)
  | None => false
  end.

Definition detectColumns (firstColumn : Row) : outcome (list Descriptor) :=
  ks <-- filterO (fun k =>
                    dt <-- datatypeOf (getProperty firstColumn k) ;;
                    Ok (recognised dt))
                 (keys firstColumn) ;;
  mapO (fun name =>
          dt <-- datatypeOf (getProperty firstColumn name) ;;
          Ok {| colName := name; colDatatype := dt |})
       ks.

Definition updateColumns : M unit :=
  this <- get ;;
  cols <- lift (detectColumns (firstRow (orElse (optionalBindings (yasr this)) []))) ;;
  modify (set_geometryColumns cols).

(** [this.geometryColumns && this.geometryColumns.length > 0]; an array is
    truthy. *)
Definition canHandleResults : M bool :=
  updateColumns ;;;
  this <- get ;;
  ret (0 <? List.length (geometryColumns this))%nat.

(** The popup line of one property. *)
Definition popupLine (k : string) (v : string) : string :=
  "<b>" ++ k ++ ":</b> "
  ++ (if (120 <? String.length v)%nat then substring 0 120 v ++ "..." else v).

Definition onEachFeature (feature : Feature) : outcome string :=
  let p := properties feature in
  popupContent <-- mapO (fun k =>
                           v <-- valueOf (getProperty p k) ;;
                           match v with
                           | JStr s => Ok (popupLine k s)
                           | _ => Throw TypeError
                           end)
                        (keys p) ;;
  Ok (join "<br>" popupContent).

(** [L.geoJson(geojson, { pointToLayer, onEachFeature })]. *)
Definition geoJson (geojson : FeatureCollection) : outcome GeoJsonLayer :=
  mapO (fun f =>
          content <-- onEachFeature f ;;
          Ok {| shape_feature := f; popup := content |})
       (features geojson).

(** ** Sample data *)

Definition point (x y : Z) : jsval :=
  JObj [ ("type", JStr "Point"); ("coordinates", JArr [JNum x; JNum y]) ].

(** A stand-in for [wellknown]: it reads one point and, like the library,
    answers [null] to text it cannot read. *)
Definition sampleParseWKT (input : jsval) : outcome jsval :=
  match input with
  | JStr s => if String.eqb s "POINT(1 2)" then Ok (point 1 2) else Ok JNull
  | _ => Throw TypeError
  end.

(** A stand-in for the members of [Object.prototype]. *)
Definition sampleCallInherited (name : string) (arg : jsval) : outcome jsval :=
  if String.eqb name "toString" then Ok (JStr "[object Object]") else Throw TypeError.

Definition literal (v : string) : Cell :=
  {| value := v; datatype := None; lang := None |}.

Definition typed (v dt : string) : Cell :=
  {| value := v; datatype := Some dt; lang := None |}.

(** The double quote, code unit 34. *)
Definition dquote : string := String (ascii_of_nat 34) EmptyString.

(** The text [{"type":"Point","coordinates":[1,2]}]. *)
Definition geoJsonText : string :=
  "{" ++ dquote ++ "type" ++ dquote ++ ":" ++ dquote ++ "Point" ++ dquote ++ ","
  ++ dquote ++ "coordinates" ++ dquote ++ ":[1,2]}".

Definition resultSet (rows : list Row) : option Parser :=
  Some {| json := Some {| json_results := Some {| bindings := Some rows |} |} |}.

Definition hostWith (rows : list Row) : Yasr :=
  {| results := resultSet rows; resultsEl := [HostNode 0] |}.

Definition hostWithoutResults : Yasr :=
  {| results := None; resultsEl := [HostNode 0] |}.

Definition placeRow : Row :=
  [ ("place", literal "Brussels"); ("g", typed "POINT(1 2)" wktLiteral) ].

Definition geoJsonRow : Row := [ ("g", typed geoJsonText geoJSONLiteral) ].

Definition brokenWktRow : Row := [ ("g", typed "POINT(" wktLiteral) ].


(** A value of 125 characters. *)
Definition longText : string :=
  "POLYGON((4.30 50.80, 4.40 50.80, 4.40 50.90, 4.30 50.90, 4.30 50.80),"
  ++ "(4.33 50.83, 4.37 50.83, 4.37 50.87, 4.33 50.87, 4.33 50.83))".

Definition longRow : Row := [ ("place", literal "Brussels"); ("g", typed longText wktLiteral) ].

Definition xsdString : string := "http://www.w3.org/2001/XMLSchema#string".

Definition plainRow : Row := [ ("place", typed "Brussels" xsdString) ].

(** The shape [L.geoJson] is handed for a row, given the row's geometry. *)
Definition shapeOf (item : Row) (g : jsval) (content : string) : Shape :=
  {| shape_feature := {| f_type := "Feature"; properties := item; geometry := g |};
     popup := content |}.


(** ** Notions used by the statements *)

(** The cell a row holds under one of its own keys. *)
Definition cellAt (r : Row) (k : string) : option Cell := ownProperty r k.

(** Column detection written on the cells: the own keys whose cell has a
    recognised datatype, each with that datatype. *)
Definition detected (r : Row) : list Descriptor :=
  map (fun k =>
         {| colName := k;
            colDatatype := match cellAt r k with
                           | Some c => datatype c
                           | None => None
                           end |})
      (filter (fun k =>
                 match cellAt r k with
                 | Some c => recognised (datatype c)
                 | None => false
                 end)
              (keys r)).

(** A URI is a scheme, a colon and the rest (RFC 3986, section 3):
    [hasScheme s] tells whether [s] has a colon at all. *)
Fixpoint hasScheme (s : string) : bool :=
  match s with
  | EmptyString => false
  | String c s' => Ascii.eqb c ":"%char || hasScheme s'
  end.

(** The content of the Results layer group, when the surface exists. *)
Definition resultsGroup (this : GeoPlugin) : option (list GeoJsonLayer) :=
  match surface this with
  | Some s => Some (lg s)
  | None => None
  end.

(** The bounds-fit calls the map has received. *)
Definition fitCalls (this : GeoPlugin) : list FitBounds :=
  match surface this with
  | Some s => fitBoundsCalls (leafletMap s)
  | None => []
  end.

Definition wktFamily (c : Cell) : Prop :=
  datatype c = Some wktLiteral \/ datatype c = Some virtGeometry.

(** The text a popup shows for the column [k] of a row. *)
Definition textAt (r : Row) (k : string) : string :=
  match cellAt r k with
  | Some c => value c
  | None => ""
  end.

(** The popup of a row: one line per own key, joined by line breaks. *)
Definition popupText (r : Row) : string :=
  join "<br>" (map (fun k => popupLine k (textAt r k)) (keys r)).

(** Two instances that differ at most in their map surface. *)
Definition sameOutsideSurface (a b : GeoPlugin) : Prop :=
  yasr a = yasr b
  /\ priority a = priority b
  /\ label a = label b
  /\ geometryColumns a = geometryColumns b
  /\ timeouts a = timeouts b.

(** The descriptors column detection yields for a host's current results. *)
Definition detectedColumns (y : Yasr) : list Descriptor :=
  detected (firstRow (orElse (optionalBindings y) [])).

(** [xs] is [ys] with some elements left out, the order kept. *)
Inductive subsequence {A : Type} : list A -> list A -> Prop :=
| subsequence_nil : subsequence [] []
| subsequence_skip (y : A) (xs ys : list A) :
    subsequence xs ys -> subsequence xs (y :: ys)
| subsequence_take (x : A) (xs ys : list A) :
    subsequence xs ys -> subsequence (x :: xs) (x :: ys).

(** The bounds-fit calls of a draw that added [layers] one by one: the
    n-th call is made when the first n layers are in the group. *)
Definition fitsAfterEachLayer (layers : list GeoJsonLayer) : list FitBounds :=
  map (fun n => {| fit_layers := firstn n layers;
                   padding := (20, 20)%Z; maxZoom := 14%Z |})
      (seq 1 (List.length layers)).

(** The resize calls the map has received. *)
Definition resizeCalls (this : GeoPlugin) : nat :=
  match surface this with
  | Some s => invalidateSizeCalls (leafletMap s)
  | None => 0%nat
  end.

(** The node a draw appends to the results element. *)
Definition containerOf (this : GeoPlugin) : Node :=
  container (orElse (surface this) newSurface).

(** The rows that go with each shape of a layer. *)
Definition rowsOf (layer : GeoJsonLayer) : list Row :=
  map (fun sh => properties (shape_feature sh)) layer.

Definition twoGeometriesRow : Row :=
  [ ("a", typed "POINT(1 2)" wktLiteral); ("n", literal "x");
    ("b", typed "POINT(1 2)" virtGeometry) ].

(** [s.includes(sub)]. *)
Fixpoint includes (s sub : string) : bool :=
  if prefix sub s then true
  else match s with
       | EmptyString => false
       | String _ s' => includes s' sub
       end.

(** ** The earlier plugin: the geometry column is found by its name

    The first version of the plugin takes the first column of [head.vars]
    whose name contains [WKT], parses every cell of it as WKT, shows the
    values in the popups as they are and reads the results without optional
    access.  [console.log] is left out: it changes nothing the plugin
    holds. *)

Module Earlier.

Record Head : Type := mkHead {
  vars : option (list string)
}.

Record SparqlJson : Type := mkSparqlJson {
  head : option Head;
  json_results : option SparqlResults
}.

Record Parser : Type := mkParser {
  json : option SparqlJson
}.

Record Yasr : Type := mkYasr {
  results : option Parser;
  resultsEl : list Node
}.

Record GeoPlugin : Type := mkGeoPlugin {
  yasr : Yasr;
  priority : Z;
  label : string;
  surface : option Surface;
  timeouts : list Z
}.

Definition set_surface (s : option Surface) (this : GeoPlugin) : GeoPlugin :=
  {| yasr := yasr this; priority := priority this; label := label this;
     surface := s; timeouts := timeouts this |}.

Definition set_yasr (y : Yasr) (this : GeoPlugin) : GeoPlugin :=
  {| yasr := y; priority := priority this; label := label this;
     surface := surface this; timeouts := timeouts this |}.

Definition set_timeouts (t : list Z) (this : GeoPlugin) : GeoPlugin :=
  {| yasr := yasr this; priority := priority this; label := label this;
     surface := surface this; timeouts := t |}.

(** [new GeoPlugin(yasr)]. *)
Definition constructor (y : Yasr) : GeoPlugin :=
  {| yasr := y; priority := 30; label := "Geo"; surface := None; timeouts := [] |}.

(** [this.yasr.results.json.head.vars], ready for a method call: a missing
    link throws, and so does a method call on [undefined]. *)
Definition headVars (y : Yasr) : outcome (list string) :=
  match results y with
  | None => Throw TypeError
  | Some r =>
      match json r with
      | None => Throw TypeError
      | Some j =>
          match head j with
          | None => Throw TypeError
          | Some h =>
              match vars h with
              | None => Throw TypeError
              | Some vs => Ok vs
              end
          end
      end
  end.

(** [this.yasr.results.json.results.bindings], ready for [bindings.map]. *)
Definition resultsBindings (y : Yasr) : outcome (list Row) :=
  match results y with
  | None => Throw TypeError
  | Some r =>
      match json r with
      | None => Throw TypeError
      | Some j =>
          match json_results j with
          | None => Throw TypeError
          | Some s =>
              match bindings s with
              | None => Throw TypeError
              | Some rows => Ok rows
              end
          end
      end
  end.

Definition namesWkt (col : string) : bool := includes col "WKT".

Definition canHandleResults (this : GeoPlugin) : outcome bool :=
  columns <-- headVars (yasr this) ;;
  Ok (existsb namesWkt columns).

(** [createGeojson(bindings, wktColumn)]; [wktColumn] is [undefined] when
    [find] found no column. *)
Definition createGeojson (parseWKT : jsval -> outcome jsval)
    (rows : list Row) (wktColumn : option string) : outcome FeatureCollection :=
  fs <-- mapO (fun item =>
                 v <-- valueOf (getProperty item (toKey wktColumn)) ;;
                 g <-- parseWKT v ;;
                 Ok {| f_type := "Feature"; properties := item; geometry := g |})
              rows ;;
  Ok {| fc_type := "FeatureCollection"; features := fs |}.

(** The popup line of one property: the value goes into the template as it
    is, and [undefined] is printed as such. *)
Definition popupLine (p : Row) (k : string) : outcome string :=
  match getProperty p k with
  | Own c => Ok ("<b>" ++ k ++ ":</b> " ++ value c)
  | Inherited => Ok ("<b>" ++ k ++ ":</b> " ++ "undefined")
  | Missing => Throw TypeError
  end.

Definition onEachFeature (feature : Feature) : outcome string :=
  popupContent <-- mapO (popupLine (properties feature)) (keys (properties feature)) ;;
  Ok (join "<br>" popupContent).

Definition geoJson (geojson : FeatureCollection) : outcome GeoJsonLayer :=
  mapO (fun f =>
          content <-- onEachFeature f ;;
          Ok {| shape_feature := f; popup := content |})
       (features geojson).

Definition newSurface : Surface :=
  {| container := MapContainer;
     leafletMap := {| zoom := 8; fitBoundsCalls := []; invalidateSizeCalls := 0%nat |};
     lg := [] |}.

(** [this.map.fitBounds(this.lg.getBounds(), { padding: [20, 20], maxZoom: 12 })]. *)
Definition fitBounds (s : Surface) : Surface :=
  set_leafletMap
    {| zoom := zoom (leafletMap s);
       fitBoundsCalls :=
         fitBoundsCalls (leafletMap s)
         ++ [ {| fit_layers := lg s; padding := (20, 20)%Z; maxZoom := 12%Z |} ];
       invalidateSizeCalls := invalidateSizeCalls (leafletMap s) |} s.

(** The part of [draw] that follows the [appendChild]: [s] is the surface,
    [this] the plugin with the container attached. *)
Definition render (parseWKT : jsval -> outcome jsval) (s : Surface) (this : GeoPlugin)
  : GeoPlugin * outcome unit :=
  match headVars (yasr this) with
  | Throw e => (this, Throw e)
  | Ok columns =>
      let wktColumn := find namesWkt columns in
      match resultsBindings (yasr this) with
      | Throw e => (this, Throw e)
      | Ok rows =>
          match createGeojson parseWKT rows wktColumn with
          | Throw e => (this, Throw e)
          | Ok geojson =>
              let cleared := set_lg [] s in
              match geoJson geojson with
              | Throw e => (set_surface (Some cleared) this, Throw e)
              | Ok newLayers =>
                  let added := set_lg (lg cleared ++ [newLayers]) cleared in
                  let fitted :=
                    if (0 <? List.length (features geojson))%nat
                    then fitBounds added else added in
                  (set_timeouts (timeouts this ++ [100%Z])
                     (set_surface (Some fitted) this),
                   Ok tt)
              end
          end
      end
  end.

Definition draw (parseWKT : jsval -> outcome jsval) (this : GeoPlugin)
  : GeoPlugin * outcome unit :=
  let s := match surface this with
           | Some s => s
           | None => newSurface
           end in
  render parseWKT s
    (set_yasr {| results := results (yasr this);
                 resultsEl := appendChild (container s) (resultsEl (yasr this)) |}
              (set_surface (Some s) this)).

(** The callback left with [setTimeout]: [this.map.invalidateSize()]. *)
Definition deferred (this : GeoPlugin) : GeoPlugin * outcome unit :=
  match surface this with
  | Some s =>
      (set_surface
         (Some (set_leafletMap
                  {| zoom := zoom (leafletMap s);
                     fitBoundsCalls := fitBoundsCalls (leafletMap s);
                     invalidateSizeCalls := S (invalidateSizeCalls (leafletMap s)) |}
                  s))
         this,
       Ok tt)
  | None => (this, Throw TypeError)
  end.

(** The content of the Results layer group, when the surface exists. *)
Definition resultsGroup (this : GeoPlugin) : option (list GeoJsonLayer) :=
  match surface this with
  | Some s => Some (lg s)
  | None => None
  end.

(** The bounds-fit calls the map has received. *)
Definition fitCalls (this : GeoPlugin) : list FitBounds :=
  match surface this with
  | Some s => fitBoundsCalls (leafletMap s)
  | None => []
  end.

(** The popup of a row with every value in full. *)
Definition popupText (r : Row) : string :=
  join "<br>" (map (fun k => "<b>" ++ k ++ ":</b> " ++ textAt r k) (keys r)).

(** A host whose results list the columns [columns] and the rows [rows]. *)
Definition hostWith (columns : list string) (rows : list Row) : Yasr :=
  {| results :=
       Some {| json :=
                 Some {| head := Some {| vars := Some columns |};
                         json_results := Some {| bindings := Some rows |} |} |};
     resultsEl := [HostNode 0] |}.

Definition hostWithoutResults : Yasr :=
  {| results := None; resultsEl := [HostNode 0] |}.

(** The same draw with Leaflet's answers: [leafletLayer] tells what
    [L.geoJson] does with a feature, by its geometry, and [leafletFit] what
    [map.fitBounds] does with the bounds of a group. *)
Definition geoJsonOn (leafletLayer : jsval -> outcome bool)
    (geojson : FeatureCollection) : outcome GeoJsonLayer :=
  made <-- mapO (fun f =>
                   layer <-- leafletLayer (geometry f) ;;
                   if layer
                   then content <-- onEachFeature f ;;
                        Ok [ {| shape_feature := f; popup := content |} ]
                   else Ok [])
                (features geojson) ;;
  Ok (concat made).

Definition renderOn (parseWKT : jsval -> outcome jsval)
    (leafletLayer : jsval -> outcome bool)
    (leafletFit : list GeoJsonLayer -> outcome unit)
    (s : Surface) (this : GeoPlugin) : GeoPlugin * outcome unit :=
  match headVars (yasr this) with
  | Throw e => (this, Throw e)
  | Ok columns =>
      let wktColumn := find namesWkt columns in
      match resultsBindings (yasr this) with
      | Throw e => (this, Throw e)
      | Ok rows =>
          match createGeojson parseWKT rows wktColumn with
          | Throw e => (this, Throw e)
          | Ok geojson =>
              let cleared := set_lg [] s in
              match geoJsonOn leafletLayer geojson with
              | Throw e => (set_surface (Some cleared) this, Throw e)
              | Ok newLayers =>
                  let added := set_lg (lg cleared ++ [newLayers]) cleared in
                  if (0 <? List.length (features geojson))%nat
                  then match leafletFit (lg added) with
                       | Throw e => (set_surface (Some (fitBounds added)) this, Throw e)
                       | Ok _ =>
                           (set_timeouts (timeouts this ++ [100%Z])
                              (set_surface (Some (fitBounds added)) this),
                            Ok tt)
                       end
                  else (set_timeouts (timeouts this ++ [100%Z])
                          (set_surface (Some added) this),
                        Ok tt)
              end
          end
      end
  end.

Definition drawOn (parseWKT : jsval -> outcome jsval)
    (leafletLayer : jsval -> outcome bool)
    (leafletFit : list GeoJsonLayer -> outcome unit)
    (this : GeoPlugin) : GeoPlugin * outcome unit :=
  let s := match surface this with
           | Some s => s
           | None => newSurface
           end in
  renderOn parseWKT leafletLayer leafletFit s
    (set_yasr {| results := results (yasr this);
                 resultsEl := appendChild (container s) (resultsEl (yasr this)) |}
              (set_surface (Some s) this)).

End Earlier.

Definition wktRow : Row :=
  [ ("place", literal "Brussels"); ("geoWKT", typed "POINT(1 2)" wktLiteral) ].

Definition placeOnlyRow : Row := [ ("place", literal "Brussels") ].

(** ** Stand-ins for Leaflet *)

Definition isEmptyList {A : Type} (l : list A) : bool :=
  match l with
  | [] => true
  | _ :: _ => false
  end.

(** A stand-in for what [L.geoJson] does with a feature, by its geometry:
    no layer for a falsy geometry, a marker for a point with two
    coordinates, an error for a point without coordinates and for anything
    that is not a geometry object. *)
Definition sampleLeafletLayer (g : jsval) : outcome bool :=
  match g with
  | JUndefined => Ok false
  | JNull => Ok false
  | JBool false => Ok false
  | JNum Z0 => Ok false
  | JStr EmptyString => Ok false
  | JObj [ (t, JStr p); (c, JArr [JNum _; JNum _]) ]
  | JObj [ (t, JStr p); (c, JArr [JNum _; JNum _; JNum _]) ] =>
      if String.eqb t "type" && String.eqb p "Point" && String.eqb c "coordinates"
      then Ok true
      else Throw (HostError "Invalid GeoJSON object.")
  | JObj [ (t, JStr p); (c, JArr []) ] =>
      if String.eqb t "type" && String.eqb p "Point" && String.eqb c "coordinates"
      then Throw (HostError "Invalid LatLng object: (undefined, undefined)")
      else Throw (HostError "Invalid GeoJSON object.")
  | _ => Throw (HostError "Invalid GeoJSON object.")
  end.

(** A stand-in for [map.fitBounds] on the bounds of a group: the bounds are
    valid when some layer of the group holds a shape. *)
Definition sampleLeafletFit (layers : list GeoJsonLayer) : outcome unit :=
  if existsb (fun l => negb (isEmptyList l)) layers
  then Ok tt
  else Throw (HostError "Bounds are not valid.").

Definition mixedRow : Row := [ ("g", typed "somewhere" xsdString) ].

Definition placeOfLongNameRow : Row :=
  [ ("place", literal longText); ("g", typed "POINT(1 2)" wktLiteral) ].

(** ** The methods that reach the parser *)

Section GeoPlugin.

(** [parseWKT], the default export of [wellknown]. *)
Variable parseWKT : jsval -> outcome jsval.

(** [Object.prototype[name].call(conversions, arg)]. *)
Variable callInherited : string -> jsval -> outcome jsval.

Definition applyConversion (f : Conversion) (arg : jsval) : outcome jsval :=
  match f with
  | ParseWKT => parseWKT arg
  | PassThrough => Ok arg
  | ProtoMember name => callInherited name arg
  end.

(** The [geometry] expression of [createGeojson] for one row. *)
Definition geometryOf (item : Row) (column : string) : outcome jsval :=
  dt <-- datatypeOf (getProperty item column) ;;
  match conversionsAt dt with
  | Some f =>
      v <-- valueOf (getProperty item column) ;;
      applyConversion f v
  | None => Ok emptyPoint
  end.

Definition createGeojson (rows : list Row) (column : string)
  : outcome FeatureCollection :=
  fs <-- mapO (fun item =>
                 g <-- geometryOf item column ;;
                 Ok {| f_type := "Feature"; properties := item; geometry := g |})
              rows ;;
  Ok {| fc_type := "FeatureCollection"; features := fs |}.

(** [createGeojson(this.yasr.results.json.results.bindings, colName)]: a
    missing link of the chain throws, and so does [undefined.map]. *)
Definition createGeojsonOfResults (y : Yasr) (column : string)
  : outcome FeatureCollection :=
  match optionalBindings y with
  | Some rows => createGeojson rows column
  | None => Throw TypeError
  end.

(** The body of the loop over [this.geometryColumns]. *)
Definition renderColumn (geometryColumn : Descriptor) : M unit :=
  this <- get ;;
  geojson <- lift (createGeojsonOfResults (yasr this) (colName geometryColumn)) ;;
  newLayers <- lift (geoJson geojson) ;;
  addLayer newLayers ;;;
  if (0 <? List.length (features geojson))%nat then fitBounds else ret tt.

(** The callback left with [setTimeout]. *)
Definition deferred : M unit :=
  invalidateSize ;;;
  fitBounds.

Definition updateMap : M unit :=
  this <- get ;;
  (match surface this with
   | None => modify (set_surface (Some newSurface))
   | Some _ => ret tt
   end) ;;;
  appendContainer ;;;
  clearLayers ;;;
  this' <- get ;;
  forOf renderColumn (geometryColumns this') ;;;
  setTimeout 100.

Definition draw : M unit :=
  updateColumns ;;;
  updateMap.

(** The host's timer fires: the oldest callback runs. *)
Definition runTimeout : M unit :=
  this <- get ;;
  match timeouts this with
  | [] => ret tt
  | _ :: rest => modify (set_timeouts rest) ;;; deferred
  end.

(** [new GeoPlugin(yasr)]. *)
Definition constructor (y : Yasr) : GeoPlugin * outcome unit :=
  updateColumns
    {| yasr := y; priority := 30; label := "Geo"; geometryColumns := [];
       surface := None; timeouts := [] |}.

(** What [L.geoJson(createGeojson(bindings, column), ...)] evaluates to. *)
Definition layerOf (y : Yasr) (column : string) : outcome GeoJsonLayer :=
  geojson <-- createGeojsonOfResults y column ;;
  geoJson geojson.

(** The layers the loop of [updateMap] adds to [acc]: one per column, up to
    the first column whose layer cannot be built. *)
Fixpoint builtLayers (y : Yasr) (columns : list Descriptor) (acc : list GeoJsonLayer)
  : list GeoJsonLayer :=
  match columns with
  | [] => acc
  | d :: columns' =>
      match layerOf y (colName d) with
      | Ok l => builtLayers y columns' (acc ++ [l])
      | Throw _ => acc
      end
  end.

(** ** The draw cycle with Leaflet's answers

    [geoJson] and [fitBounds] above record what the plugin asks of Leaflet.
    Leaflet may also refuse: [L.geoJson] makes no layer for some features and
    throws on others, and [map.fitBounds] throws on bounds that are not
    valid.  The definitions below run the same methods with Leaflet's answers
    as parameters; a layer of the Results group then holds the features
    Leaflet made a layer for. *)

(** What [L.geoJson] does with one feature, by its geometry: [Ok true] when
    it makes a layer for it, [Ok false] when it leaves the feature out. *)
Variable leafletLayer : jsval -> outcome bool.

(** What [map.fitBounds] does with the bounds of a group. *)
Variable leafletFit : list GeoJsonLayer -> outcome unit.

(** [L.geoJson(geojson, { pointToLayer, onEachFeature })]: for each feature
    the layer is made first, then [onEachFeature] binds the popup. *)
Definition geoJsonOn (geojson : FeatureCollection) : outcome GeoJsonLayer :=
  made <-- mapO (fun f =>
                   layer <-- leafletLayer (geometry f) ;;
                   if layer
                   then content <-- onEachFeature f ;;
                        Ok [ {| shape_feature := f; popup := content |} ]
                   else Ok [])
                (features geojson) ;;
  Ok (concat made).

(** [this.map.fitBounds(this.lg.getBounds(), { padding: [20, 20], maxZoom: 14 })]:
    the map receives the call and answers. *)
Definition fitBoundsOn : M unit :=
  fun this =>
    match surface this with
    | Some s =>
        (set_surface
           (Some (set_leafletMap
                    {| zoom := zoom (leafletMap s);
                       fitBoundsCalls :=
                         fitBoundsCalls (leafletMap s)
                         ++ [ {| fit_layers := lg s; padding := (20, 20)%Z;
                                 maxZoom := 14%Z |} ];
                       invalidateSizeCalls := invalidateSizeCalls (leafletMap s) |}
                    s))
           this,
         leafletFit (lg s))
    | None => (this, Throw TypeError)
    end.

Definition renderColumnOn (geometryColumn : Descriptor) : M unit :=
  this <- get ;;
  geojson <- lift (createGeojsonOfResults (yasr this) (colName geometryColumn)) ;;
  newLayers <- lift (geoJsonOn geojson) ;;
  addLayer newLayers ;;;
  if (0 <? List.length (features geojson))%nat then fitBoundsOn else ret tt.

Definition deferredOn : M unit :=
  invalidateSize ;;;
  fitBoundsOn.

Definition updateMapOn : M unit :=
  this <- get ;;
  (match surface this with
   | None => modify (set_surface (Some newSurface))
   | Some _ => ret tt
   end) ;;;
  appendContainer ;;;
  clearLayers ;;;
  this' <- get ;;
  forOf renderColumnOn (geometryColumns this') ;;;
  setTimeout 100.

Definition drawOn : M unit :=
  updateColumns ;;;
  updateMapOn.

(** What [L.geoJson(createGeojson(bindings, column), ...)] evaluates to. *)
Definition layerOn (y : Yasr) (column : string) : outcome GeoJsonLayer :=
  geojson <-- createGeojsonOfResults y column ;;
  geoJsonOn geojson.

(** The loop of [updateMapOn] over [columns], from a group holding [acc]:
    the layers of the group when the loop ends, and how it ends. *)
Fixpoint renderedOn (y : Yasr) (columns : list Descriptor) (acc : list GeoJsonLayer)
  : list GeoJsonLayer * outcome unit :=
  match columns with
  | [] => (acc, Ok tt)
  | d :: columns' =>
      match createGeojsonOfResults y (colName d) with
      | Throw e => (acc, Throw e)
      | Ok geojson =>
          match geoJsonOn geojson with
          | Throw e => (acc, Throw e)
          | Ok l =>
              if (0 <? List.length (features geojson))%nat
              then match leafletFit (acc ++ [l]) with
                   | Ok _ => renderedOn y columns' (acc ++ [l])
                   | Throw e => ((acc ++ [l])%list, Throw e)
                   end
              else renderedOn y columns' (acc ++ [l])
          end
      end
  end.

(** ** Lists of completions *)

Lemma mapO_ok {A B : Type} (f : A -> outcome B) (g : A -> B) (l : list A) :
  (forall x, In x l -> f x = Ok (g x)) -> mapO f l = Ok (map g l).
Proof.
  induction l as [|x l IH]; intros H; simpl.
  - reflexivity.
  - rewrite (H x (or_introl eq_refl)). simpl.
    rewrite IH by (intros y Hy; apply H; right; exact Hy).
    reflexivity.
Qed.

Lemma filterO_ok {A : Type} (f : A -> outcome bool) (g : A -> bool) (l : list A) :
  (forall x, In x l -> f x = Ok (g x)) -> filterO f l = Ok (filter g l).
Proof.
  induction l as [|x l IH]; intros H; simpl.
  - reflexivity.
  - rewrite (H x (or_introl eq_refl)). simpl.
    rewrite IH by (intros y Hy; apply H; right; exact Hy).
    reflexivity.
Qed.

Lemma mapO_throw {A B : Type} (f : A -> outcome B) (l : list A) (x : A) (e : JsError) :
  In x l -> f x = Throw e -> exists e', mapO f l = Throw e'.
Proof.
  induction l as [|y l IH]; intros Hin Hx; simpl in *.
  - contradiction.
  - destruct (f y) as [b|e0] eqn:Hy; simpl.
    + destruct Hin as [->|Hin]; [congruence|].
      destruct (IH Hin Hx) as [e' ->]. exists e'. reflexivity.
    + exists e0. reflexivity.
Qed.

Lemma mapO_inv {A B : Type} (f : A -> outcome B) (l : list A) (ys : list B) :
  mapO f l = Ok ys -> Forall2 (fun x y => f x = Ok y) l ys.
Proof.
  revert ys. induction l as [|x l IH]; intros ys H; simpl in H.
  - injection H as <-. constructor.
  - destruct (f x) as [y|e] eqn:Hx; simpl in H; [|discriminate].
    destruct (mapO f l) as [ys'|e] eqn:Hl; simpl in H; [|discriminate].
    injection H as <-. constructor; [exact Hx | apply IH; reflexivity].
Qed.

Lemma filter_none {A : Type} (f : A -> bool) (l : list A) :
  (forall x, In x l -> f x = false) -> filter f l = [].
Proof.
  induction l as [|x l IH]; intros H; simpl.
  - reflexivity.
  - rewrite (H x (or_introl eq_refl)). apply IH.
    intros y Hy. apply H. right. exact Hy.
Qed.

(** ** Property reads *)

Lemma ownProperty_key {V : Type} (o : list (string * V)) (k : string) :
  In k (keys o) -> exists v, ownProperty o k = Some v.
Proof.
  induction o as [|[k' v] o IH]; simpl; intros H.
  - contradiction.
  - destruct (String.eqb_spec k k') as [->|Hne].
    + exists v. reflexivity.
    + destruct H as [H|H]; [congruence | exact (IH H)].
Qed.

Lemma ownProperty_in_keys {V : Type} (o : list (string * V)) (k : string) (v : V) :
  ownProperty o k = Some v -> In k (keys o).
Proof.
  induction o as [|[k' v'] o IH]; simpl; intros H.
  - discriminate.
  - destruct (String.eqb_spec k k') as [->|Hne].
    + left. reflexivity.
    + right. exact (IH H).
Qed.

Lemma getProperty_own (item : Row) (k : string) (c : Cell) :
  cellAt item k = Some c -> getProperty item k = Own c.
Proof.
  unfold cellAt, getProperty. intros ->. reflexivity.
Qed.

Lemma inList_In (k : string) (l : list string) :
  inList k l = true <-> In k l.
Proof.
  unfold inList. rewrite existsb_exists. split.
  - intros [x [Hin Heq]]. apply String.eqb_eq in Heq. subst. exact Hin.
  - intros Hin. exists k. split; [exact Hin | apply String.eqb_refl].
Qed.

(** ** Column detection *)

Lemma detectColumns_detected (r : Row) :
  detectColumns r = Ok (detected r).
Proof.
  unfold detectColumns, detected.
  rewrite (filterO_ok _
             (fun k => match cellAt r k with
                       | Some c => recognised (datatype c)
                       | None => false
                       end)).
  - simpl. apply mapO_ok.
    intros k Hk. apply filter_In in Hk. destruct Hk as [Hk _].
    destruct (ownProperty_key r k Hk) as [c Hc].
    rewrite (getProperty_own r k c Hc). unfold cellAt. rewrite Hc. reflexivity.
  - intros k Hk.
    destruct (ownProperty_key r k Hk) as [c Hc].
    rewrite (getProperty_own r k c Hc). unfold cellAt. rewrite Hc. reflexivity.
Qed.

(** The descriptor list [updateColumns] computes for a host. *)
Lemma updateColumns_run (this : GeoPlugin) :
  updateColumns this
  = (set_geometryColumns
       (detected (firstRow (orElse (optionalBindings (yasr this)) []))) this,
     Ok tt).
Proof.
  unfold updateColumns, bind, get, lift, modify.
  rewrite detectColumns_detected. reflexivity.
Qed.

Lemma canHandleResults_run (this : GeoPlugin) :
  canHandleResults this
  = (set_geometryColumns
       (detected (firstRow (orElse (optionalBindings (yasr this)) []))) this,
     Ok (0 <? List.length
               (detected (firstRow (orElse (optionalBindings (yasr this)) []))))%nat).
Proof.
  unfold canHandleResults, bind. rewrite updateColumns_run. reflexivity.
Qed.

Lemma detected_nonempty (r : Row) (k : string) (c : Cell) :
  cellAt r k = Some c -> recognised (datatype c) = true -> detected r <> [].
Proof.
  intros Hc Hrec Hnil. unfold detected in Hnil.
  apply map_eq_nil in Hnil.
  assert (Hin : In k (filter (fun k => match cellAt r k with
                                       | Some c => recognised (datatype c)
                                       | None => false
                                       end) (keys r))).
  { apply filter_In. split.
    - exact (ownProperty_in_keys r k c Hc).
    - rewrite Hc. exact Hrec. }
  rewrite Hnil in Hin. contradiction.
Qed.

Lemma detected_empty (r : Row) :
  (forall k c, cellAt r k = Some c -> recognised (datatype c) = false) ->
  detected r = [].
Proof.
  intros H. unfold detected.
  assert (Hf : filter (fun k => match cellAt r k with
                                | Some c => recognised (datatype c)
                                | None => false
                                end) (keys r) = []).
  { apply filter_none. intros k Hk.
    destruct (ownProperty_key r k Hk) as [c Hc].
    unfold cellAt in *. rewrite Hc. exact (H k c Hc). }
  rewrite Hf. reflexivity.
Qed.

Lemma recognised_table (dt : string) :
  dt = wktLiteral \/ dt = virtGeometry \/ dt = geoJSONLiteral ->
  recognised (Some dt) = true.
Proof.
  intros [-> | [-> | ->]]; reflexivity.
Qed.

Lemma recognised_not_key (dt : option string) :
  (forall s, dt = Some s -> ~ In s (keys conversions)) -> recognised dt = false.
Proof.
  intros H. destruct dt as [s|]; [|reflexivity].
  unfold recognised. apply andb_false_iff. right.
  destruct (inList s (keys conversions)) eqn:E; [|reflexivity].
  apply inList_In in E. exfalso. exact (H s eq_refl E).
Qed.

(** ** The capability probe *)

(** C1. When the first row has a column whose cell carries one of the three
    datatypes of the conversion table, [canHandleResults] returns true; when
    the result set has no row, or the row that is inspected (the first) has
    no cell with a datatype of the table, it returns false. *)
Theorem canHandleResults_recognised_datatype (this : GeoPlugin) :
  (forall row rest k c dt,
      optionalBindings (yasr this) = Some (row :: rest) ->
      cellAt row k = Some c ->
      datatype c = Some dt ->
      dt = wktLiteral \/ dt = virtGeometry \/ dt = geoJSONLiteral ->
      snd (canHandleResults this) = Ok true)
  /\ (optionalBindings (yasr this) = Some [] ->
      snd (canHandleResults this) = Ok false)
  /\ (forall row rest,
        optionalBindings (yasr this) = Some (row :: rest) ->
        (forall k c dt,
            cellAt row k = Some c -> datatype c = Some dt ->
            ~ In dt (keys conversions)) ->
        snd (canHandleResults this) = Ok false).
Proof.
  rewrite canHandleResults_run. simpl. repeat split.
  - intros row rest k c dt Hb Hc Hdt Htable. rewrite Hb.
    change (firstRow (orElse (Some (row :: rest)) [])) with row.
    assert (Hne : detected row <> []).
    { apply (detected_nonempty row k c Hc).
      rewrite Hdt. apply recognised_table. exact Htable. }
    destruct (detected row); [congruence | reflexivity].
  - intros Hb. rewrite Hb. reflexivity.
  - intros row rest Hb Hnone. rewrite Hb.
    change (firstRow (orElse (Some (row :: rest)) [])) with row.
    rewrite detected_empty; [reflexivity|].
    intros k c Hc. apply recognised_not_key.
    intros s Hs. exact (Hnone k c s Hc Hs).
Qed.

(** C9, as amended.  Column detection and the capability probe write one
    field, [geometryColumns], which receives the descriptors detected in the
    current result set; the host with its result set, [priority], [label],
    the map surface and the pending callbacks are left as they were, and a
    second call in a row changes nothing more. *)
Theorem canHandleResults_frame (this : GeoPlugin) :
  let after := fst (canHandleResults this) in
  yasr after = yasr this
  /\ priority after = priority this
  /\ label after = label this
  /\ surface after = surface this
  /\ timeouts after = timeouts this
  /\ geometryColumns after
     = detected (firstRow (orElse (optionalBindings (yasr this)) []))
  /\ fst (updateColumns this) = after
  /\ fst (canHandleResults after) = after.
Proof.
  simpl. rewrite !canHandleResults_run, updateColumns_run. simpl.
  repeat split; reflexivity.
Qed.

(** C10. When the host has no results object, or the results have no JSON
    body, or the body has no [results] member or no [bindings] list, or the
    list is empty, [updateColumns] returns normally with an empty descriptor
    list and [canHandleResults] returns false. *)
Theorem updateColumns_total_without_results (this : GeoPlugin) :
  results (yasr this) = None
  \/ (exists r, results (yasr this) = Some r /\ json r = None)
  \/ (exists r j, results (yasr this) = Some r /\ json r = Some j
                  /\ json_results j = None)
  \/ (exists r j s, results (yasr this) = Some r /\ json r = Some j
                    /\ json_results j = Some s /\ bindings s = None)
  \/ (exists r j s, results (yasr this) = Some r /\ json r = Some j
                    /\ json_results j = Some s /\ bindings s = Some []) ->
  updateColumns this = (set_geometryColumns [] this, Ok tt)
  /\ canHandleResults this = (set_geometryColumns [] this, Ok false).
Proof.
  intros H.
  assert (Hrow : firstRow (orElse (optionalBindings (yasr this)) []) = []).
  { unfold optionalBindings.
    destruct H as [H | [(r & H1 & H2) | [(r & j & H1 & H2 & H3)
                     | [(r & j & s & H1 & H2 & H3 & H4) | (r & j & s & H1 & H2 & H3 & H4)]]]].
    - rewrite H. reflexivity.
    - rewrite H1, H2. reflexivity.
    - rewrite H1, H2, H3. reflexivity.
    - rewrite H1, H2, H3, H4. reflexivity.
    - rewrite H1, H2, H3, H4. reflexivity. }
  rewrite canHandleResults_run, updateColumns_run, Hrow. split; reflexivity.
Qed.

(** ** The geometry of one row *)

Lemma ownProperty_not_key {V : Type} (o : list (string * V)) (k : string) :
  ~ In k (keys o) -> ownProperty o k = None.
Proof.
  intros H. destruct (ownProperty o k) as [v|] eqn:E; [|reflexivity].
  exfalso. exact (H (ownProperty_in_keys o k v E)).
Qed.

(** No name inherited from [Object.prototype] has a scheme. *)
Lemma inherited_name_no_scheme (k : string) :
  inList k objectPrototypeKeys = true -> hasScheme k = false.
Proof.
  intros H. apply inList_In in H. simpl in H.
  repeat (destruct H as [<- | H]; [reflexivity|]).
  contradiction.
Qed.

Lemma conversionsAt_unknown (dt : option string) :
  (forall s, dt = Some s -> hasScheme s = true /\ ~ In s (keys conversions)) ->
  conversionsAt dt = None.
Proof.
  intros H. destruct dt as [s|]; [|reflexivity].
  destruct (H s eq_refl) as [Hscheme Hkey].
  unfold conversionsAt. simpl toKey.
  rewrite (ownProperty_not_key conversions s Hkey).
  destruct (inList s objectPrototypeKeys) eqn:E; [|reflexivity].
  apply inherited_name_no_scheme in E. congruence.
Qed.

Lemma geometryOf_own (item : Row) (column : string) (c : Cell) :
  cellAt item column = Some c ->
  geometryOf item column
  = match conversionsAt (datatype c) with
    | Some f => applyConversion f (JStr (value c))
    | None => Ok emptyPoint
    end.
Proof.
  intros Hc. unfold geometryOf. rewrite (getProperty_own item column c Hc).
  simpl. destruct (conversionsAt (datatype c)); reflexivity.
Qed.

Lemma geometryOf_wkt (item : Row) (column : string) (c : Cell) :
  cellAt item column = Some c -> wktFamily c ->
  geometryOf item column = parseWKT (JStr (value c)).
Proof.
  intros Hc Hw. rewrite (geometryOf_own item column c Hc).
  destruct Hw as [-> | ->]; reflexivity.
Qed.

(** ** The feature collection *)

Lemma createGeojson_inv (rows : list Row) (column : string) (fc : FeatureCollection) :
  createGeojson rows column = Ok fc ->
  fc_type fc = "FeatureCollection"
  /\ Forall2 (fun item f =>
                f_type f = "Feature" /\ properties f = item
                /\ geometryOf item column = Ok (geometry f))
             rows (features fc).
Proof.
  unfold createGeojson. intros H.
  destruct (mapO _ rows) as [fs|e] eqn:E; simpl in H; [|discriminate].
  injection H as <-. split; [reflexivity|]. simpl.
  apply mapO_inv in E.
  induction E as [|item f rows fs Hf _ IH]; constructor; [|exact IH].
  destruct (geometryOf item column) as [g|e]; simpl in Hf; [|discriminate].
  injection Hf as <-. repeat split; reflexivity.
Qed.

Lemma createGeojson_ok (rows : list Row) (column : string) :
  (forall item, In item rows -> exists g, geometryOf item column = Ok g) ->
  exists fs,
    createGeojson rows column = Ok {| fc_type := "FeatureCollection"; features := fs |}.
Proof.
  intros H. unfold createGeojson.
  induction rows as [|item rows IH]; simpl.
  - exists []. reflexivity.
  - destruct (H item (or_introl eq_refl)) as [g Hg]. rewrite Hg. simpl.
    destruct IH as [fs IH]; [intros i Hi; apply H; right; exact Hi|].
    destruct (mapO _ rows) as [fs'|e]; simpl in IH; [|discriminate].
    simpl. eexists. reflexivity.
Qed.


Lemma Forall2_Forall_r {A B : Type} (R : A -> B -> Prop) (P : B -> Prop)
    (l : list A) (l' : list B) :
  Forall2 R l l' -> (forall x y, R x y -> P y) -> Forall P l'.
Proof.
  intros H HP. induction H as [|x y l l' Hxy _ IH]; constructor.
  - exact (HP x y Hxy).
  - exact IH.
Qed.

Lemma Forall2_map_eq {A B : Type} (f : B -> A) (l : list A) (l' : list B) :
  Forall2 (fun x y => f y = x) l l' -> map f l' = l.
Proof.
  induction 1; simpl; congruence.
Qed.

(** ** Popups and layers *)

Lemma onEachFeature_run (f : Feature) :
  onEachFeature f = Ok (popupText (properties f)).
Proof.
  unfold onEachFeature, popupText.
  rewrite (mapO_ok _ (fun k => popupLine k (textAt (properties f) k))).
  - reflexivity.
  - intros k Hk. destruct (ownProperty_key (properties f) k Hk) as [c Hc].
    rewrite (getProperty_own _ k c Hc). unfold textAt, cellAt. rewrite Hc.
    reflexivity.
Qed.

Lemma geoJson_run (geojson : FeatureCollection) :
  geoJson geojson
  = Ok (map (fun f => {| shape_feature := f; popup := popupText (properties f) |})
            (features geojson)).
Proof.
  unfold geoJson. apply mapO_ok. intros f _. rewrite onEachFeature_run. reflexivity.
Qed.

Lemma layerOf_shapes (y : Yasr) (column : string) (l : GeoJsonLayer) (sh : Shape) :
  layerOf y column = Ok l -> In sh l ->
  popup sh = popupText (properties (shape_feature sh)).
Proof.
  unfold layerOf. destruct (createGeojsonOfResults y column) as [g|e]; simpl; [|discriminate].
  rewrite geoJson_run. intros H Hin. injection H as <-.
  apply in_map_iff in Hin. destruct Hin as [f [<- _]]. reflexivity.
Qed.

Lemma layerOf_same_results (y y' : Yasr) (column : string) :
  results y = results y' -> layerOf y column = layerOf y' column.
Proof.
  intros H. unfold layerOf, createGeojsonOfResults, optionalBindings.
  rewrite H. reflexivity.
Qed.

Lemma builtLayers_same_results (y y' : Yasr) (columns : list Descriptor) :
  results y = results y' ->
  forall acc, builtLayers y columns acc = builtLayers y' columns acc.
Proof.
  intros H. induction columns as [|d columns IH]; intros acc; simpl.
  - reflexivity.
  - rewrite (layerOf_same_results y y' (colName d) H).
    destruct (layerOf y' (colName d)); [apply IH | reflexivity].
Qed.

Lemma builtLayers_all (y : Yasr) (columns : list Descriptor) (ls : list GeoJsonLayer) :
  mapO (fun d => layerOf y (colName d)) columns = Ok ls ->
  forall acc, builtLayers y columns acc = (acc ++ ls)%list.
Proof.
  revert ls. induction columns as [|d columns IH]; intros ls H acc; simpl in *.
  - injection H as <-. rewrite app_nil_r. reflexivity.
  - destruct (layerOf y (colName d)) as [l|e]; simpl in H; [|discriminate].
    destruct (mapO _ columns) as [ls'|e]; simpl in H; [|discriminate].
    injection H as <-. rewrite (IH ls' eq_refl). rewrite <- app_assoc. reflexivity.
Qed.

Lemma builtLayers_from (y : Yasr) (columns : list Descriptor) :
  forall acc l,
    In l (builtLayers y columns acc) ->
    In l acc \/ exists d, In d columns /\ layerOf y (colName d) = Ok l.
Proof.
  induction columns as [|d columns IH]; intros acc l H; simpl in H.
  - left. exact H.
  - destruct (layerOf y (colName d)) as [l0|e] eqn:E.
    + destruct (IH _ _ H) as [Hacc | [d' [Hd' Hl]]].
      * apply in_app_or in Hacc. destruct Hacc as [Hacc | [<- | []]].
        -- left. exact Hacc.
        -- right. exists d. split; [left; reflexivity | exact E].
      * right. exists d'. split; [right; exact Hd' | exact Hl].
    + left. exact H.
Qed.

(** ** The draw cycle *)

Lemma sameOutsideSurface_refl (this : GeoPlugin) : sameOutsideSurface this this.
Proof.
  repeat split.
Qed.

Lemma sameOutsideSurface_trans (a b c : GeoPlugin) :
  sameOutsideSurface a b -> sameOutsideSurface b c -> sameOutsideSurface a c.
Proof.
  unfold sameOutsideSurface. intros (H1 & H2 & H3 & H4 & H5) (K1 & K2 & K3 & K4 & K5).
  repeat split; congruence.
Qed.

Lemma forOf_cons {A : Type} (body : A -> M unit) (x : A) (l : list A) (this : GeoPlugin) :
  forOf body (x :: l) this
  = match body x this with
    | (this', Ok _) => forOf body l this'
    | (this', Throw e) => (this', Throw e)
    end.
Proof.
  reflexivity.
Qed.

Lemma renderColumn_step (d : Descriptor) (this : GeoPlugin) (s : Surface) :
  surface this = Some s ->
  match layerOf (yasr this) (colName d) with
  | Ok l =>
      exists this' s',
        renderColumn d this = (this', Ok tt)
        /\ sameOutsideSurface this' this
        /\ surface this' = Some s'
        /\ container s' = container s
        /\ lg s' = (lg s ++ [l])%list
  | Throw e => renderColumn d this = (this, Throw e)
  end.
Proof.
  intros Hs. unfold layerOf, renderColumn, bind, get, lift.
  destruct (createGeojsonOfResults (yasr this) (colName d)) as [g|e]; simpl; [|reflexivity].
  rewrite geoJson_run. simpl.
  unfold addLayer, fitBounds, onSurface, ret. rewrite Hs. simpl.
  destruct (0 <? List.length (features g))%nat; simpl;
    eexists; eexists; (split; [reflexivity|]); simpl;
    repeat split; reflexivity.
Qed.

Lemma forOf_renderColumn (columns : list Descriptor) :
  forall this s,
    surface this = Some s ->
    sameOutsideSurface (fst (forOf renderColumn columns this)) this
    /\ (exists s',
           surface (fst (forOf renderColumn columns this)) = Some s'
           /\ container s' = container s
           /\ lg s' = builtLayers (yasr this) columns (lg s))
    /\ snd (forOf renderColumn columns this)
       = (_ <-- mapO (fun d => layerOf (yasr this) (colName d)) columns ;; Ok tt).
Proof.
  induction columns as [|d columns IH]; intros this s Hs.
  - simpl. split; [apply sameOutsideSurface_refl|]. split; [|reflexivity].
    exists s. repeat split. exact Hs.
  - pose proof (renderColumn_step d this s Hs) as Hstep.
    rewrite !forOf_cons.
    cbn [mapO obind builtLayers].
    destruct (layerOf (yasr this) (colName d)) as [l|e].
    + destruct Hstep as (this' & s' & Hrun & Hsame & Hs' & Hc & Hlg).
      rewrite Hrun.
      destruct (IH this' s' Hs') as (Ksame & (s'' & Ks & Kc & Klg) & Kout).
      assert (Hy : yasr this' = yasr this) by (destruct Hsame as [H _]; exact H).
      rewrite Hy in Klg, Kout.
      split; [exact (sameOutsideSurface_trans _ _ _ Ksame Hsame)|]. split.
      * exists s''. repeat split; [exact Ks | congruence | rewrite Klg, Hlg; reflexivity].
      * rewrite Kout. simpl.
        destruct (mapO (fun d0 => layerOf (yasr this) (colName d0)) columns); reflexivity.
    + rewrite Hstep. simpl.
      split; [apply sameOutsideSurface_refl|]. split; [|reflexivity].
      exists s. repeat split. exact Hs.
Qed.

Lemma updateMap_run (this : GeoPlugin) :
  let s0 := orElse (surface this) newSurface in
  let r := updateMap this in
  results (yasr (fst r)) = results (yasr this)
  /\ resultsEl (yasr (fst r)) = appendChild (container s0) (resultsEl (yasr this))
  /\ priority (fst r) = priority this
  /\ label (fst r) = label this
  /\ geometryColumns (fst r) = geometryColumns this
  /\ resultsGroup (fst r)
     = Some (builtLayers (yasr this) (geometryColumns this) [])
  /\ snd r
     = (_ <-- mapO (fun d => layerOf (yasr this) (colName d)) (geometryColumns this) ;;
        Ok tt)
  /\ timeouts (fst r)
     = match snd r with
       | Ok _ => (timeouts this ++ [100%Z])%list
       | Throw _ => timeouts this
       end.
Proof.
  destruct this as [y p l cols sf t].
  destruct sf as [s|];
    unfold updateMap, bind, get, modify, ret, appendContainer, clearLayers,
      onSurface, setTimeout; simpl;
    match goal with
    | |- context [forOf renderColumn ?c ?st] =>
        destruct (forOf_renderColumn c st _ eq_refl)
          as ((Hy & Hp & Hl & Hg & Ht) & (s' & Hs' & Hc & Hlg) & Hout);
        destruct (forOf renderColumn c st) as [st' o]
    end;
    simpl in *;
    rewrite (builtLayers_same_results {| results := results y; resultsEl := _ |}
               y cols eq_refl) in Hlg;
    assert (Hout' : o = (_ <-- mapO (fun d => layerOf y (colName d)) cols ;; Ok tt))
      by (rewrite Hout; f_equal;
          apply (f_equal (fun k => mapO k cols));
          reflexivity);
    unfold resultsGroup;
    destruct o as [[]|e]; simpl; rewrite ?Hs', ?Hy, ?Hp, ?Hl, ?Hg, ?Ht, ?Hlg;
    simpl; repeat split; try reflexivity; try exact Hout'.
Qed.

Lemma draw_unfold (this : GeoPlugin) :
  draw this = updateMap (set_geometryColumns (detectedColumns (yasr this)) this).
Proof.
  unfold draw, bind. rewrite updateColumns_run. reflexivity.
Qed.

Lemma draw_run (this : GeoPlugin) :
  let r := draw this in
  results (yasr (fst r)) = results (yasr this)
  /\ priority (fst r) = priority this
  /\ label (fst r) = label this
  /\ geometryColumns (fst r) = detectedColumns (yasr this)
  /\ resultsGroup (fst r)
     = Some (builtLayers (yasr this) (detectedColumns (yasr this)) [])
  /\ snd r
     = (_ <-- mapO (fun d => layerOf (yasr this) (colName d))
                   (detectedColumns (yasr this)) ;;
        Ok tt)
  /\ timeouts (fst r)
     = match snd r with
       | Ok _ => (timeouts this ++ [100%Z])%list
       | Throw _ => timeouts this
       end.
Proof.
  cbv zeta. rewrite draw_unfold.
  destruct (updateMap_run (set_geometryColumns (detectedColumns (yasr this)) this))
    as (H1 & _ & H2 & H3 & H4 & H5 & H6 & H7).
  cbv zeta in *. simpl in *.
  repeat split; assumption.
Qed.

Lemma detectedColumns_same_results (y y' : Yasr) :
  results y = results y' -> detectedColumns y = detectedColumns y'.
Proof.
  intros H. unfold detectedColumns, optionalBindings. rewrite H. reflexivity.
Qed.

(** C7. On a result set without rows the probe returns false and a draw
    completes with an empty Results layer group and no bounds-fit call; it
    leaves one callback with [setTimeout], and that callback, when it runs,
    calls [fitBounds] on the bounds of the empty group. *)
Theorem draw_zero_rows_deferred_fit (this : GeoPlugin) :
  optionalBindings (yasr this) = Some [] ->
  snd (canHandleResults this) = Ok false
  /\ snd (draw this) = Ok tt
  /\ resultsGroup (fst (draw this)) = Some []
  /\ fitCalls (fst (draw this)) = fitCalls this
  /\ timeouts (fst (draw this)) = (timeouts this ++ [100%Z])%list
  /\ fitCalls (fst (deferred (fst (draw this))))
     = (fitCalls this
        ++ [ {| fit_layers := []; padding := (20, 20)%Z; maxZoom := 14%Z |} ])%list.
Proof.
  intros Hrows.
  assert (Hcols : detectedColumns (yasr this) = []).
  { unfold detectedColumns. rewrite Hrows. reflexivity. }
  split.
  - rewrite canHandleResults_run. fold (detectedColumns (yasr this)).
    rewrite Hcols. reflexivity.
  - rewrite draw_unfold, Hcols.
    destruct this as [y p l cols sf t]. destruct sf as [s|]; simpl;
      repeat split; reflexivity.
Qed.

(** ** Geometry conversion *)

(** C2. For the row whose GeoJSON-literal cell holds the text
    [{"type":"Point","coordinates":[1,2]}], the feature [createGeojson]
    builds has that text itself as its geometry, not the Point object the
    text denotes. *)
Theorem geojson_literal_geometry_is_text :
  createGeojson [geoJsonRow] "g"
  = Ok {| fc_type := "FeatureCollection";
          features := [ {| f_type := "Feature"; properties := geoJsonRow;
                           geometry := JStr geoJsonText |} ] |}
  /\ JStr geoJsonText <> point 1 2.
Proof.
  split; [reflexivity | discriminate].
Qed.


(** C5. A collection [createGeojson] returns has one feature per row, in
    row order, and the properties of each feature are its row as it stands,
    every cell included; the collection is returned whenever every row binds
    the column and the conversion chosen by the cell's datatype returns on
    the cell's text; and a draw leaves the host's result set as it found
    it. *)
Theorem createGeojson_features_are_rows
    (this : GeoPlugin) (rows : list Row) (column : string) :
  (forall fc,
      createGeojson rows column = Ok fc ->
      fc_type fc = "FeatureCollection"
      /\ List.length (features fc) = List.length rows
      /\ map properties (features fc) = rows
      /\ Forall (fun f => f_type f = "Feature") (features fc))
  /\ ((forall item, In item rows ->
         exists c, cellAt item column = Some c
                   /\ match conversionsAt (datatype c) with
                      | Some f => exists g, applyConversion f (JStr (value c)) = Ok g
                      | None => True
                      end) ->
      exists fc, createGeojson rows column = Ok fc)
  /\ results (yasr (fst (draw this))) = results (yasr this).
Proof.
  split; [|split].
  - intros fc Hfc. destruct (createGeojson_inv rows column fc Hfc) as [Ht Hinv].
    split; [exact Ht|].
    assert (Hmap : map properties (features fc) = rows).
    { apply Forall2_map_eq.
      revert Hinv. apply Forall2_impl. intros item f (_ & Hp & _). exact Hp. }
    split; [rewrite <- Hmap, length_map; reflexivity|].
    split; [exact Hmap|].
    apply (Forall2_Forall_r _ _ _ _ Hinv). intros item f (Hf & _). exact Hf.
  - intros Hall.
    destruct (createGeojson_ok rows column) as [fs Hfs].
    + intros item Hin. destruct (Hall item Hin) as (c & Hc & Hconv).
      rewrite (geometryOf_own item column c Hc).
      destruct (conversionsAt (datatype c)) as [f|].
      * exact Hconv.
      * exists emptyPoint. reflexivity.
    + eexists. exact Hfs.
  - destruct (draw_run this) as (H & _). exact H.
Qed.

(** ** Popup content *)

Lemma substring_first (n : nat) :
  forall s, (n <= String.length s)%nat ->
            exists rest, s = substring 0 n s ++ rest
                         /\ String.length (substring 0 n s) = n.
Proof.
  induction n as [|n IH]; intros s Hlen.
  - exists s. destruct s; split; reflexivity.
  - destruct s as [|c s]; simpl in Hlen; [lia|].
    destruct (IH s) as [rest [Hs Hl]]; [lia|].
    exists rest. simpl. split; [rewrite <- Hs; reflexivity | rewrite Hl; reflexivity].
Qed.

Lemma popupLine_law (k v : string) :
  exists shown,
    popupLine k v = "<b>" ++ k ++ ":</b> " ++ shown
    /\ ((120 < String.length v)%nat ->
        exists first rest,
          v = first ++ rest /\ String.length first = 120%nat
          /\ shown = first ++ "...")
    /\ ((String.length v <= 120)%nat -> shown = v).
Proof.
  unfold popupLine. destruct (Nat.ltb_spec 120 (String.length v)) as [Hlong|Hshort].
  - exists (substring 0 120 v ++ "..."). split; [reflexivity|]. split.
    + intros _. destruct (substring_first 120 v) as [rest [Hv Hl]]; [lia|].
      exists (substring 0 120 v), rest. repeat split; assumption.
    + intros H. lia.
  - exists v. split; [reflexivity|]. split.
    + intros H. lia.
    + intros _. reflexivity.
Qed.

(** C4. Every popup a draw binds is the list of its feature's properties,
    one line per column joined by line breaks, and the line of a column
    shows the first 120 characters of the value followed by [...] when the
    value is longer than 120 characters, and the value itself otherwise. *)
Theorem popup_truncates_long_values
    (this : GeoPlugin) (layers : list GeoJsonLayer) (layer : GeoJsonLayer) (sh : Shape) :
  resultsGroup (fst (draw this)) = Some layers ->
  In layer layers ->
  In sh layer ->
  exists lines,
    popup sh = join "<br>" lines
    /\ Forall2
         (fun k line =>
            exists c shown,
              cellAt (properties (shape_feature sh)) k = Some c
              /\ line = "<b>" ++ k ++ ":</b> " ++ shown
              /\ ((120 < String.length (value c))%nat ->
                  exists first rest,
                    value c = first ++ rest
                    /\ String.length first = 120%nat
                    /\ shown = first ++ "...")
              /\ ((String.length (value c) <= 120)%nat -> shown = value c))
         (keys (properties (shape_feature sh))) lines.
Proof.
  intros Hgroup Hlayer Hsh.
  destruct (draw_run this) as (_ & _ & _ & _ & Hg & _). cbv zeta in Hg.
  rewrite Hg in Hgroup. injection Hgroup as <-.
  destruct (builtLayers_from _ _ _ _ Hlayer) as [[] | (d & _ & Hd)].
  rewrite (layerOf_shapes _ _ _ _ Hd Hsh).
  set (p := properties (shape_feature sh)).
  exists (map (fun k => popupLine k (textAt p k)) (keys p)).
  split; [reflexivity|].
  assert (Hkeys : forall k, In k (keys p) -> exists c, cellAt p k = Some c).
  { intros k Hk. exact (ownProperty_key p k Hk). }
  induction (keys p) as [|k ks IH]; simpl; constructor.
  - destruct (Hkeys k (or_introl eq_refl)) as [c Hc].
    destruct (popupLine_law k (value c)) as (shown & Hline & Hlong & Hshort).
    exists c, shown. unfold textAt. rewrite Hc.
    repeat split; assumption.
  - apply IH. intros k' Hk'. apply Hkeys. right. exact Hk'.
Qed.

(** ** More on column detection *)

Lemma recognised_iff (dt : option string) :
  recognised dt = true
  <-> exists s, dt = Some s
                /\ (s = wktLiteral \/ s = virtGeometry \/ s = geoJSONLiteral).
Proof.
  split.
  - destruct dt as [s|]; [|discriminate]. unfold recognised.
    intros H. apply andb_true_iff in H. destruct H as [_ H].
    apply inList_In in H. simpl in H. exists s. split; [reflexivity|].
    destruct H as [H | [H | [H | []]]]; auto.
  - intros [s [-> H]]. apply recognised_table. exact H.
Qed.

Lemma filter_subsequence {A : Type} (f : A -> bool) (l : list A) :
  subsequence (filter f l) l.
Proof.
  induction l as [|x l IH]; simpl.
  - constructor.
  - destruct (f x); constructor; exact IH.
Qed.

Lemma detected_names (r : Row) :
  map colName (detected r)
  = filter (fun k => match cellAt r k with
                     | Some c => recognised (datatype c)
                     | None => false
                     end)
           (keys r).
Proof.
  unfold detected. rewrite map_map. simpl. apply map_id.
Qed.

(** X1. After [updateColumns] the descriptor list holds a descriptor
    [{ colName: k, datatype: dt }] exactly when the first row has a cell
    under [k] whose datatype is [dt] and [dt] is one of the three keys of the
    conversion table. *)
Theorem updateColumns_descriptors (this : GeoPlugin) (k : string) (dt : option string) :
  In {| colName := k; colDatatype := dt |} (geometryColumns (fst (updateColumns this)))
  <-> exists c s,
        cellAt (firstRow (orElse (optionalBindings (yasr this)) [])) k = Some c
        /\ datatype c = Some s
        /\ dt = Some s
        /\ (s = wktLiteral \/ s = virtGeometry \/ s = geoJSONLiteral).
Proof.
  rewrite updateColumns_run. simpl.
  set (r := firstRow (orElse (optionalBindings (yasr this)) [])).
  unfold detected. rewrite in_map_iff. split.
  - intros [k' [Heq Hin]]. injection Heq as -> <-.
    apply filter_In in Hin. destruct Hin as [_ Hrec].
    destruct (cellAt r k) as [c|]; [|discriminate].
    apply recognised_iff in Hrec. destruct Hrec as [s [Hs Htable]].
    exists c, s. repeat split; assumption.
  - intros (c & s & Hc & Hs & -> & Htable).
    exists k. rewrite Hc. split; [rewrite Hs; reflexivity|].
    apply filter_In. split.
    + exact (ownProperty_in_keys r k c Hc).
    + rewrite Hc, Hs. apply recognised_table. exact Htable.
Qed.

(** X2. The detected columns come in the [Object.keys] order of the first
    row, and when the row's keys are distinct no column is listed twice. *)
Theorem updateColumns_keeps_key_order (this : GeoPlugin) :
  subsequence (map colName (geometryColumns (fst (updateColumns this))))
              (keys (firstRow (orElse (optionalBindings (yasr this)) [])))
  /\ (NoDup (keys (firstRow (orElse (optionalBindings (yasr this)) []))) ->
      NoDup (map colName (geometryColumns (fst (updateColumns this))))).
Proof.
  rewrite updateColumns_run. simpl. rewrite detected_names. split.
  - apply filter_subsequence.
  - intros H. apply NoDup_filter. exact H.
Qed.

(** X3. The constructor returns normally, whatever the host holds: the new
    instance has priority 30, label [Geo], no map surface, no pending
    callback and the columns detected in the host's current results; probing
    it right away returns it unchanged, with true exactly when a column was
    detected. *)
Theorem constructor_detects (y : Yasr) :
  constructor y
  = ({| yasr := y; priority := 30; label := "Geo";
        geometryColumns := detectedColumns y; surface := None; timeouts := [] |},
     Ok tt)
  /\ canHandleResults (fst (constructor y))
     = (fst (constructor y),
        Ok (negb (Nat.eqb (List.length (detectedColumns y)) 0))).
Proof.
  assert (H : constructor y
              = ({| yasr := y; priority := 30; label := "Geo";
                    geometryColumns := detectedColumns y; surface := None;
                    timeouts := [] |}, Ok tt)).
  { unfold constructor. rewrite updateColumns_run. reflexivity. }
  split; [exact H|].
  rewrite H, canHandleResults_run. simpl.
  fold (detectedColumns y). destruct (detectedColumns y); reflexivity.
Qed.

(** ** The map surface through a draw *)

Lemma firstn_length_app {A : Type} (a b : list A) :
  firstn (List.length a) (a ++ b) = a.
Proof.
  induction a as [|x a IH]; simpl.
  - reflexivity.
  - rewrite IH. reflexivity.
Qed.

Lemma renderColumn_step_fits (d : Descriptor) (this : GeoPlugin) (s : Surface) :
  surface this = Some s ->
  (forall g, createGeojsonOfResults (yasr this) (colName d) = Ok g ->
             features g <> []) ->
  match layerOf (yasr this) (colName d) with
  | Ok l =>
      exists this' s',
        renderColumn d this = (this', Ok tt)
        /\ yasr this' = yasr this
        /\ surface this' = Some s'
        /\ container s' = container s
        /\ lg s' = (lg s ++ [l])%list
        /\ zoom (leafletMap s') = zoom (leafletMap s)
        /\ invalidateSizeCalls (leafletMap s') = invalidateSizeCalls (leafletMap s)
        /\ fitBoundsCalls (leafletMap s')
           = (fitBoundsCalls (leafletMap s)
              ++ [ {| fit_layers := lg s ++ [l];
                      padding := (20, 20)%Z; maxZoom := 14%Z |} ])%list
  | Throw e => renderColumn d this = (this, Throw e)
  end.
Proof.
  intros Hs Hne. unfold layerOf, renderColumn, bind, get, lift.
  destruct (createGeojsonOfResults (yasr this) (colName d)) as [g|e] eqn:Hg;
    simpl; [|reflexivity].
  rewrite geoJson_run. simpl.
  unfold addLayer, fitBounds, onSurface, ret. rewrite Hs. simpl.
  specialize (Hne g eq_refl).
  destruct (features g) as [|f fs]; [congruence|]. simpl.
  eexists. eexists. split; [reflexivity|]. simpl. repeat split; reflexivity.
Qed.

Lemma forOf_renderColumn_fits (columns : list Descriptor) :
  forall this s,
    surface this = Some s ->
    (forall d g, In d columns ->
                 createGeojsonOfResults (yasr this) (colName d) = Ok g ->
                 features g <> []) ->
    exists s' new,
      surface (fst (forOf renderColumn columns this)) = Some s'
      /\ container s' = container s
      /\ lg s' = (lg s ++ new)%list
      /\ zoom (leafletMap s') = zoom (leafletMap s)
      /\ invalidateSizeCalls (leafletMap s') = invalidateSizeCalls (leafletMap s)
      /\ fitBoundsCalls (leafletMap s')
         = (fitBoundsCalls (leafletMap s)
            ++ map (fun n => {| fit_layers := firstn n (lg s ++ new);
                                padding := (20, 20)%Z; maxZoom := 14%Z |})
                   (seq (S (List.length (lg s))) (List.length new)))%list.
Proof.
  induction columns as [|d columns IH]; intros this s Hs Hne.
  - exists s, []. simpl. rewrite !app_nil_r. repeat split. exact Hs.
  - pose proof (renderColumn_step_fits d this s Hs
                  (fun g => Hne d g (or_introl eq_refl))) as Hstep.
    rewrite forOf_cons.
    destruct (layerOf (yasr this) (colName d)) as [l|e].
    + destruct Hstep as (this' & s1 & Hrun & Hy & Hs1 & Hc & Hlg & Hz & Hi & Hf).
      rewrite Hrun.
      destruct (IH this' s1 Hs1) as (s' & new & Ks & Kc & Klg & Kz & Ki & Kf).
      { intros d' g Hd'. rewrite Hy. apply Hne. right. exact Hd'. }
      exists s', (l :: new).
      assert (Happ : ((lg s ++ [l]) ++ new = lg s ++ l :: new)%list)
        by (rewrite <- app_assoc; reflexivity).
      repeat split.
      * exact Ks.
      * congruence.
      * rewrite Klg, Hlg. exact Happ.
      * congruence.
      * congruence.
      * rewrite Kf, Hf, Hlg, Happ. rewrite <- app_assoc. f_equal.
        cbn [List.length seq map].
        assert (Hlen : List.length (lg s ++ [l]) = S (List.length (lg s)))
          by (rewrite length_app; simpl; lia).
        rewrite Hlen. cbn [app]. f_equal. f_equal.
        rewrite <- Happ, <- Hlen. rewrite firstn_length_app. reflexivity.
    + rewrite Hstep. exists s, []. simpl. rewrite !app_nil_r. repeat split. exact Hs.
Qed.

Lemma detected_features_nonempty (y : Yasr) (d : Descriptor) (g : FeatureCollection) :
  In d (detectedColumns y) ->
  createGeojsonOfResults y (colName d) = Ok g ->
  features g <> [].
Proof.
  unfold detectedColumns, createGeojsonOfResults.
  destruct (optionalBindings y) as [[|row rest]|]; simpl.
  - intros [].
  - intros _ Hg. destruct (createGeojson_inv _ _ _ Hg) as [_ Hinv].
    inversion Hinv. discriminate.
  - intros [].
Qed.

Lemma updateMap_surface (this : GeoPlugin) :
  (forall d g, In d (geometryColumns this) ->
               createGeojsonOfResults (yasr this) (colName d) = Ok g ->
               features g <> []) ->
  exists s',
    surface (fst (updateMap this)) = Some s'
    /\ container s' = containerOf this
    /\ zoom (leafletMap s') = zoom (leafletMap (orElse (surface this) newSurface))
    /\ invalidateSizeCalls (leafletMap s') = resizeCalls this
    /\ fitBoundsCalls (leafletMap s')
       = (fitCalls this ++ fitsAfterEachLayer (lg s'))%list.
Proof.
  intros Hne.
  destruct this as [y p l cols sf t].
  unfold containerOf, resizeCalls, fitCalls, fitsAfterEachLayer.
  destruct sf as [s|];
    unfold updateMap, bind, get, modify, ret, appendContainer, clearLayers,
      onSurface, setTimeout; simpl;
    match goal with
    | |- context [forOf renderColumn ?c ?st] =>
        destruct (forOf_renderColumn_fits c st _ eq_refl Hne)
          as (s' & new & Hs' & Hc & Hlg & Hz & Hi & Hf);
        destruct (forOf renderColumn c st) as [st' o]
    end;
    simpl in *;
    exists s'; destruct o as [[]|e]; simpl; rewrite Hs';
    rewrite Hlg, Hf; repeat split; assumption.
Qed.

Lemma draw_surface (this : GeoPlugin) :
  exists s',
    surface (fst (draw this)) = Some s'
    /\ container s' = containerOf this
    /\ zoom (leafletMap s') = zoom (leafletMap (orElse (surface this) newSurface))
    /\ invalidateSizeCalls (leafletMap s') = resizeCalls this
    /\ fitBoundsCalls (leafletMap s')
       = (fitCalls this ++ fitsAfterEachLayer (lg s'))%list.
Proof.
  rewrite draw_unfold.
  apply (updateMap_surface (set_geometryColumns (detectedColumns (yasr this)) this)).
  simpl. intros d g. apply detected_features_nonempty.
Qed.

(** X4. Whether a draw completes or throws, it calls [fitBounds] once after
    each layer it adds to the Results group, with padding [20, 20] and
    maximum zoom 14, on the bounds of the layers added so far, and makes no
    other bounds-fit call. *)
Theorem draw_fits_after_each_layer (this : GeoPlugin) :
  exists layers,
    resultsGroup (fst (draw this)) = Some layers
    /\ fitCalls (fst (draw this)) = (fitCalls this ++ fitsAfterEachLayer layers)%list
    /\ resizeCalls (fst (draw this)) = resizeCalls this.
Proof.
  destruct (draw_surface this) as (s' & Hs & _ & _ & Hi & Hf).
  exists (lg s'). unfold resultsGroup, fitCalls, resizeCalls at 1.
  rewrite Hs. repeat split; assumption.
Qed.

(** X5. A draw that completes leaves exactly one callback with
    [setTimeout], with a delay of 100; a draw that throws leaves none. *)
Theorem draw_schedules_one_callback (this : GeoPlugin) :
  timeouts (fst (draw this))
  = match snd (draw this) with
    | Ok _ => (timeouts this ++ [100%Z])%list
    | Throw _ => timeouts this
    end.
Proof.
  destruct (draw_run this) as (_ & _ & _ & _ & _ & _ & H). exact H.
Qed.

(** ** The results element *)

Lemma nodeEqb_eq (a b : Node) : nodeEqb a b = true <-> a = b.
Proof.
  destruct a as [|i], b as [|j]; simpl; split; intros H;
    try reflexivity; try discriminate.
  - apply Nat.eqb_eq in H. congruence.
  - injection H as ->. apply Nat.eqb_refl.
Qed.

Lemma appendChild_twice (n : Node) (l : list Node) :
  appendChild n (appendChild n l) = appendChild n l.
Proof.
  unfold appendChild. rewrite filter_app. simpl.
  assert (Hn : nodeEqb n n = true) by (apply nodeEqb_eq; reflexivity).
  rewrite Hn. simpl. rewrite app_nil_r. f_equal.
  induction l as [|x l IH]; simpl.
  - reflexivity.
  - destruct (nodeEqb x n) eqn:E; simpl; [exact IH|].
    rewrite E. simpl. rewrite IH. reflexivity.
Qed.

Lemma draw_resultsEl (this : GeoPlugin) :
  resultsEl (yasr (fst (draw this)))
  = appendChild (containerOf this) (resultsEl (yasr this)).
Proof.
  rewrite draw_unfold.
  destruct (updateMap_run (set_geometryColumns (detectedColumns (yasr this)) this))
    as (_ & H & _).
  exact H.
Qed.

Lemma draw_containerOf (this : GeoPlugin) :
  containerOf (fst (draw this)) = containerOf this.
Proof.
  destruct (draw_surface this) as (s' & Hs & Hc & _).
  unfold containerOf at 1. rewrite Hs. exact Hc.
Qed.

(** X6. After a draw, complete or not, the map container is the last child
    of the results element and occurs there once; the other children are
    those the element had, in the same order; a second draw leaves the
    children as they are. *)
Theorem draw_attaches_container (this : GeoPlugin) :
  exists others,
    resultsEl (yasr (fst (draw this))) = (others ++ [containerOf this])%list
    /\ ~ In (containerOf this) others
    /\ subsequence others (resultsEl (yasr this))
    /\ (forall n, n <> containerOf this ->
                  In n (resultsEl (yasr this)) -> In n others)
    /\ resultsEl (yasr (fst (draw (fst (draw this)))))
       = resultsEl (yasr (fst (draw this))).
Proof.
  exists (filter (fun c => negb (nodeEqb c (containerOf this))) (resultsEl (yasr this))).
  split; [apply draw_resultsEl|]. split; [|split; [|split]].
  - intros H. apply filter_In in H. destruct H as [_ H].
    assert (Hn : nodeEqb (containerOf this) (containerOf this) = true)
      by (apply nodeEqb_eq; reflexivity).
    rewrite Hn in H. discriminate.
  - apply filter_subsequence.
  - intros n Hne Hin. apply filter_In. split; [exact Hin|].
    destruct (nodeEqb n (containerOf this)) eqn:E; [|reflexivity].
    apply nodeEqb_eq in E. contradiction.
  - rewrite (draw_resultsEl (fst (draw this))), draw_containerOf, draw_resultsEl.
    apply appendChild_twice.
Qed.

(** ** Probe and draw together *)

Lemma set_geometryColumns_same (this : GeoPlugin) :
  set_geometryColumns (geometryColumns this) this = this.
Proof.
  destruct this. reflexivity.
Qed.

(** X8. When the probe answers false a draw still completes: it leaves the
    Results group empty, makes no bounds-fit call and leaves one callback. *)
Theorem draw_without_columns (this : GeoPlugin) :
  snd (canHandleResults this) = Ok false ->
  snd (draw this) = Ok tt
  /\ resultsGroup (fst (draw this)) = Some []
  /\ fitCalls (fst (draw this)) = fitCalls this
  /\ timeouts (fst (draw this)) = (timeouts this ++ [100%Z])%list.
Proof.
  rewrite canHandleResults_run. simpl. fold (detectedColumns (yasr this)).
  intros H.
  assert (Hcols : detectedColumns (yasr this) = []).
  { destruct (detectedColumns (yasr this)); [reflexivity | discriminate]. }
  destruct (draw_run this) as (_ & _ & _ & _ & Hg & Hout & Ht). cbv zeta in *.
  rewrite Hcols in Hg, Hout. simpl in Hg, Hout.
  rewrite Hout in Ht.
  destruct (draw_surface this) as (s' & Hs & _ & _ & _ & Hf).
  unfold resultsGroup in Hg. rewrite Hs in Hg. injection Hg as Hlg.
  rewrite Hlg in Hf. unfold fitsAfterEachLayer in Hf. simpl in Hf.
  rewrite app_nil_r in Hf.
  repeat split.
  - exact Hout.
  - unfold resultsGroup. rewrite Hs, Hlg. reflexivity.
  - unfold fitCalls at 1. rewrite Hs. exact Hf.
  - exact Ht.
Qed.

(** X9. Probing right after a draw, complete or not, changes nothing: the
    probe returns the plugin as the draw left it, with true exactly when the
    draw had detected a column. *)
Theorem canHandleResults_after_draw (this : GeoPlugin) :
  canHandleResults (fst (draw this))
  = (fst (draw this),
     Ok (negb (Nat.eqb (List.length (geometryColumns (fst (draw this)))) 0))).
Proof.
  destruct (draw_run this) as (Hres & _ & _ & Hcols & _). cbv zeta in *.
  rewrite canHandleResults_run.
  fold (detectedColumns (yasr (fst (draw this)))).
  rewrite (detectedColumns_same_results _ _ Hres), <- Hcols.
  rewrite set_geometryColumns_same.
  destruct (geometryColumns (fst (draw this))); reflexivity.
Qed.

(** ** A row that leaves the column unbound *)

Lemma mapO_stops {A B : Type} (f : A -> outcome B) (good rest : list A) (x : A)
    (e : JsError) :
  (forall a, In a good -> exists b, f a = Ok b) ->
  f x = Throw e ->
  mapO f (good ++ x :: rest)%list = Throw e.
Proof.
  intros Hgood Hx. induction good as [|a good IH]; simpl.
  - rewrite Hx. reflexivity.
  - destruct (Hgood a (or_introl eq_refl)) as [b Hb]. rewrite Hb. simpl.
    rewrite IH; [reflexivity|]. intros a' Ha'. apply Hgood. right. exact Ha'.
Qed.

(** X11. When the rows before it convert and a row has no cell under the
    column (and the column is not named like a member of
    [Object.prototype]), [createGeojson] throws a [TypeError]; a draw over
    such rows with that column detected throws and leaves no callback. *)
Theorem createGeojson_unbound_cell
    (good rest : list Row) (item : Row) (column : string) :
  (forall r, In r good -> exists g, geometryOf r column = Ok g) ->
  cellAt item column = None ->
  inList column objectPrototypeKeys = false ->
  createGeojson (good ++ item :: rest)%list column = Throw TypeError
  /\ (forall this d,
         optionalBindings (yasr this) = Some (good ++ item :: rest)%list ->
         In d (detectedColumns (yasr this)) -> colName d = column ->
         (exists e, snd (draw this) = Throw e)
         /\ timeouts (fst (draw this)) = timeouts this).
Proof.
  intros Hgood Hnone Hproto.
  assert (Hthrow : createGeojson (good ++ item :: rest)%list column = Throw TypeError).
  { unfold createGeojson.
    rewrite (mapO_stops _ good rest item TypeError).
    - reflexivity.
    - intros r Hr. destruct (Hgood r Hr) as [g Hg]. rewrite Hg. eexists. reflexivity.
    - unfold geometryOf, getProperty. unfold cellAt in Hnone.
      rewrite Hnone, Hproto. reflexivity. }
  split; [exact Hthrow|].
  intros this d Hrows Hd Hcol.
  destruct (draw_run this) as (_ & _ & _ & _ & _ & Hout & Ht). cbv zeta in *.
  destruct (mapO_throw (fun d => layerOf (yasr this) (colName d))
              (detectedColumns (yasr this)) d TypeError Hd) as [e He].
  { unfold layerOf, createGeojsonOfResults. rewrite Hrows, Hcol, Hthrow. reflexivity. }
  rewrite He in Hout. simpl in Hout. rewrite Hout in Ht.
  split; [exists e; exact Hout | exact Ht].
Qed.

(** ** The length of a popup line *)

Lemma length_append (a b : string) :
  String.length (a ++ b) = (String.length a + String.length b)%nat.
Proof.
  induction a as [|c a IH]; simpl; [reflexivity | rewrite IH; reflexivity].
Qed.

(** X12. The popup line of a column is 9 characters of markup, the column
    name and the shown value; the shown value has the length of the value
    when that is at most 120 and 123 otherwise, so a line never exceeds the
    column name by more than 132 characters. *)
Theorem popupLine_length (k v : string) :
  String.length (popupLine k v)
  = (9 + String.length k
     + (if (120 <? String.length v)%nat then 123 else String.length v))%nat
  /\ (String.length (popupLine k v) <= String.length k + 132)%nat.
Proof.
  assert (H : String.length (popupLine k v)
              = (9 + String.length k
                 + (if (120 <? String.length v)%nat then 123 else String.length v))%nat).
  { unfold popupLine. rewrite !length_append. simpl String.length.
    destruct (Nat.ltb_spec 120 (String.length v)) as [Hlong|Hshort].
    - rewrite length_append.
      destruct (substring_first 120 v) as [rest [_ Hl]]; [lia|].
      rewrite Hl. simpl. lia.
    - lia. }
  split; [exact H|]. rewrite H.
  destruct (Nat.ltb_spec 120 (String.length v)); lia.
Qed.

(** ** Layers with Leaflet's answers *)

Lemma Forall2_in_r {A B : Type} (R : A -> B -> Prop) (l : list A) (l' : list B) (y : B) :
  Forall2 R l l' -> In y l' -> exists x, In x l /\ R x y.
Proof.
  induction 1 as [|a b l l' Hab _ IH]; intros Hin.
  - contradiction.
  - destruct Hin as [<- | Hin].
    + exists a. split; [left; reflexivity | exact Hab].
    + destruct (IH Hin) as (x & Hx & HR). exists x. split; [right; exact Hx | exact HR].
Qed.

Lemma Forall2_in_l {A B : Type} (R : A -> B -> Prop) (l : list A) (l' : list B) (x : A) :
  Forall2 R l l' -> In x l -> exists y, In y l' /\ R x y.
Proof.
  induction 1 as [|a b l l' Hab _ IH]; intros Hin.
  - contradiction.
  - destruct Hin as [<- | Hin].
    + exists b. split; [left; reflexivity | exact Hab].
    + destruct (IH Hin) as (y & Hy & HR). exists y. split; [right; exact Hy | exact HR].
Qed.


Lemma geoJsonOn_throw (geojson : FeatureCollection) (f : Feature) (e : JsError) :
  In f (features geojson) -> leafletLayer (geometry f) = Throw e ->
  exists e', geoJsonOn geojson = Throw e'.
Proof.
  intros Hin Hthrow. unfold geoJsonOn.
  destruct (mapO_throw
              (fun f =>
                 layer <-- leafletLayer (geometry f) ;;
                 if layer
                 then content <-- onEachFeature f ;;
                      Ok [ {| shape_feature := f; popup := content |} ]
                 else Ok [])
              (features geojson) f e Hin) as [e' He'].
  - rewrite Hthrow. reflexivity.
  - rewrite He'. exists e'. reflexivity.
Qed.

Lemma concat_singletons {A B : Type} (f : A -> B) (l : list A) :
  concat (map (fun x => [f x]) l) = map f l.
Proof.
  induction l as [|x l IH]; simpl; [reflexivity | rewrite IH; reflexivity].
Qed.

Lemma geoJsonOn_all (geojson : FeatureCollection) :
  (forall f, In f (features geojson) -> leafletLayer (geometry f) = Ok true) ->
  geoJsonOn geojson
  = Ok (map (fun f => {| shape_feature := f; popup := popupText (properties f) |})
            (features geojson)).
Proof.
  intros H. unfold geoJsonOn.
  rewrite (mapO_ok _ (fun f => [ {| shape_feature := f;
                                    popup := popupText (properties f) |} ])).
  - simpl. f_equal. apply concat_singletons.
  - intros f Hf. rewrite (H f Hf). simpl. rewrite onEachFeature_run. reflexivity.
Qed.

Lemma renderedOn_same_results (y y' : Yasr) (columns : list Descriptor) :
  results y = results y' ->
  forall acc, renderedOn y columns acc = renderedOn y' columns acc.
Proof.
  intros H. induction columns as [|d columns IH]; intros acc; simpl.
  - reflexivity.
  - assert (Hc : createGeojsonOfResults y (colName d)
                 = createGeojsonOfResults y' (colName d)).
    { unfold createGeojsonOfResults, optionalBindings. rewrite H. reflexivity. }
    rewrite Hc.
    destruct (createGeojsonOfResults y' (colName d)) as [g|e]; [|reflexivity].
    destruct (geoJsonOn g) as [l|e]; [|reflexivity].
    destruct (0 <? List.length (features g))%nat.
    + destruct (leafletFit (acc ++ [l])); [apply IH | reflexivity].
    + apply IH.
Qed.


Lemma renderedOn_throw (y : Yasr) (columns : list Descriptor) (d : Descriptor)
    (e : JsError) :
  In d columns -> layerOn y (colName d) = Throw e ->
  forall acc, exists e', snd (renderedOn y columns acc) = Throw e'.
Proof.
  intros Hin Hthrow. induction columns as [|d0 columns IH]; intros acc.
  - contradiction.
  - simpl.
    destruct (createGeojsonOfResults y (colName d0)) as [g|e0] eqn:Eg;
      [|exists e0; reflexivity].
    destruct (geoJsonOn g) as [l|e0] eqn:El; [|exists e0; reflexivity].
    assert (Hrest : In d columns).
    { destruct Hin as [<- | Hin]; [|exact Hin].
      unfold layerOn in Hthrow. rewrite Eg in Hthrow. simpl in Hthrow. congruence. }
    destruct (0 <? List.length (features g))%nat.
    + destruct (leafletFit (acc ++ [l])) as [u|e0]; [|exists e0; reflexivity].
      apply (IH Hrest).
    + apply (IH Hrest).
Qed.

(** ** The draw cycle with Leaflet's answers *)

Lemma renderColumnOn_step (d : Descriptor) (this : GeoPlugin) (s : Surface) :
  surface this = Some s ->
  exists this' s',
    fst (renderColumnOn d this) = this'
    /\ sameOutsideSurface this' this
    /\ surface this' = Some s'
    /\ container s' = container s
    /\ match createGeojsonOfResults (yasr this) (colName d) with
       | Throw e => lg s' = lg s /\ snd (renderColumnOn d this) = Throw e
       | Ok g =>
           match geoJsonOn g with
           | Throw e => lg s' = lg s /\ snd (renderColumnOn d this) = Throw e
           | Ok l =>
               lg s' = (lg s ++ [l])%list
               /\ snd (renderColumnOn d this)
                  = if (0 <? List.length (features g))%nat
                    then leafletFit (lg s ++ [l]) else Ok tt
           end
       end.
Proof.
  intros Hs. unfold renderColumnOn, bind, get, lift.
  destruct (createGeojsonOfResults (yasr this) (colName d)) as [g|e]; simpl.
  - destruct (geoJsonOn g) as [l|e]; simpl.
    + unfold addLayer, fitBoundsOn, onSurface, ret. rewrite Hs. simpl.
      destruct (0 <? List.length (features g))%nat; simpl;
        eexists; eexists; (split; [reflexivity|]); simpl;
        repeat split; reflexivity.
    + exists this, s. repeat split. exact Hs.
  - exists this, s. repeat split. exact Hs.
Qed.

Lemma forOf_renderColumnOn (columns : list Descriptor) :
  forall this s,
    surface this = Some s ->
    sameOutsideSurface (fst (forOf renderColumnOn columns this)) this
    /\ (exists s',
           surface (fst (forOf renderColumnOn columns this)) = Some s'
           /\ container s' = container s
           /\ lg s' = fst (renderedOn (yasr this) columns (lg s)))
    /\ snd (forOf renderColumnOn columns this)
       = snd (renderedOn (yasr this) columns (lg s)).
Proof.
  induction columns as [|d columns IH]; intros this s Hs.
  - simpl. split; [apply sameOutsideSurface_refl|]. split; [|reflexivity].
    exists s. repeat split. exact Hs.
  - destruct (renderColumnOn_step d this s Hs)
      as (this' & s1 & Hfst & Hsame & Hs1 & Hc & Hstep).
    rewrite forOf_cons. cbn [renderedOn].
    destruct (renderColumnOn d this) as [st o] eqn:Hrun. simpl in Hfst, Hstep.
    subst st.
    assert (Hy : yasr this' = yasr this) by (destruct Hsame as [H _]; exact H).
    assert (Hstop : forall e, o = Throw e -> lg s1 = fst (renderedOn (yasr this) (d :: columns) (lg s)) ->
                    Throw e = snd (renderedOn (yasr this) (d :: columns) (lg s)) ->
                    sameOutsideSurface this' this
                    /\ (exists s', surface this' = Some s' /\ container s' = container s
                                   /\ lg s' = fst (renderedOn (yasr this) (d :: columns) (lg s)))
                    /\ Throw e = snd (renderedOn (yasr this) (d :: columns) (lg s))).
    { intros e _ Hl Ho. split; [exact Hsame|]. split; [|exact Ho].
      exists s1. repeat split; assumption. }
    assert (Hgo : lg s1 = (lg s1) ->
                  forall acc, lg s1 = acc ->
                  sameOutsideSurface (fst (forOf renderColumnOn columns this')) this
                  /\ (exists s', surface (fst (forOf renderColumnOn columns this')) = Some s'
                                 /\ container s' = container s
                                 /\ lg s' = fst (renderedOn (yasr this) columns acc))
                  /\ snd (forOf renderColumnOn columns this')
                     = snd (renderedOn (yasr this) columns acc)).
    { intros _ acc Hacc.
      destruct (IH this' s1 Hs1) as (Ksame & (s' & Ks & Kc & Klg) & Kout).
      rewrite Hy, Hacc in Klg, Kout.
      split; [exact (sameOutsideSurface_trans _ _ _ Ksame Hsame)|]. split; [|exact Kout].
      exists s'. repeat split; [exact Ks | congruence | exact Klg]. }
    cbn [renderedOn] in Hstop.
    destruct (createGeojsonOfResults (yasr this) (colName d)) as [g|e].
    + destruct (geoJsonOn g) as [l|e].
      * destruct Hstep as [Hlg Ho].
        destruct (0 <? List.length (features g))%nat.
        -- destruct (leafletFit (lg s ++ [l])) as [[]|e] eqn:Hfit.
           ++ rewrite Ho. apply (Hgo eq_refl). exact Hlg.
           ++ rewrite Ho. apply (Hstop e Ho); [exact Hlg | reflexivity].
        -- rewrite Ho. apply (Hgo eq_refl). exact Hlg.
      * destruct Hstep as [Hlg Ho]. rewrite Ho.
        apply (Hstop e Ho); [exact Hlg | reflexivity].
    + destruct Hstep as [Hlg Ho]. rewrite Ho.
      apply (Hstop e Ho); [exact Hlg | reflexivity].
Qed.

Lemma updateMapOn_run (this : GeoPlugin) :
  let r := updateMapOn this in
  results (yasr (fst r)) = results (yasr this)
  /\ geometryColumns (fst r) = geometryColumns this
  /\ resultsGroup (fst r)
     = Some (fst (renderedOn (yasr this) (geometryColumns this) []))
  /\ snd r = snd (renderedOn (yasr this) (geometryColumns this) [])
  /\ timeouts (fst r)
     = match snd r with
       | Ok _ => (timeouts this ++ [100%Z])%list
       | Throw _ => timeouts this
       end.
Proof.
  destruct this as [y p l cols sf t].
  destruct sf as [s|];
    unfold updateMapOn, bind, get, modify, ret, appendContainer, clearLayers,
      onSurface, setTimeout; simpl;
    match goal with
    | |- context [forOf renderColumnOn ?c ?st] =>
        destruct (forOf_renderColumnOn c st _ eq_refl)
          as ((Hy & Hp & Hl & Hg & Ht) & (s' & Hs' & Hc & Hlg) & Hout);
        destruct (forOf renderColumnOn c st) as [st' o]
    end;
    simpl in *;
    rewrite (renderedOn_same_results {| results := results y; resultsEl := _ |}
               y cols eq_refl) in Hlg, Hout;
    unfold resultsGroup;
    destruct o as [[]|e]; simpl; rewrite ?Hs', ?Hy, ?Hp, ?Hl, ?Hg, ?Ht, ?Hlg;
    simpl; repeat split; try reflexivity; try exact Hout.
Qed.

Lemma drawOn_run (this : GeoPlugin) :
  let r := drawOn this in
  results (yasr (fst r)) = results (yasr this)
  /\ geometryColumns (fst r) = detectedColumns (yasr this)
  /\ resultsGroup (fst r)
     = Some (fst (renderedOn (yasr this) (detectedColumns (yasr this)) []))
  /\ snd r = snd (renderedOn (yasr this) (detectedColumns (yasr this)) [])
  /\ timeouts (fst r)
     = match snd r with
       | Ok _ => (timeouts this ++ [100%Z])%list
       | Throw _ => timeouts this
       end.
Proof.
  cbv zeta.
  assert (H : drawOn this
              = updateMapOn (set_geometryColumns (detectedColumns (yasr this)) this)).
  { unfold drawOn, bind. rewrite updateColumns_run. reflexivity. }
  rewrite H.
  destruct (updateMapOn_run (set_geometryColumns (detectedColumns (yasr this)) this))
    as (H1 & H2 & H3 & H4 & H5).
  cbv zeta in *. simpl in *. repeat split; assumption.
Qed.


(** C8, as amended.  A cell whose datatype is missing, or is a URI that is
    not a key of the conversion table, is converted to the empty point
    [{ type: 'Point', coordinates: [] }] and the conversion returns
    normally, so [createGeojson] raises no error for it; the feature goes to
    [L.geoJson] as it is, and when Leaflet throws on the empty point a draw
    over a result set that holds such a cell in a detected column throws. *)
Theorem unknown_datatype_empty_point_unguarded
    (item : Row) (column : string) (c : Cell) :
  cellAt item column = Some c ->
  (forall dt, datatype c = Some dt ->
              hasScheme dt = true /\ ~ In dt (keys conversions)) ->
  geometryOf item column = Ok emptyPoint
  /\ createGeojson [item] column
     = Ok {| fc_type := "FeatureCollection";
             features := [ {| f_type := "Feature"; properties := item;
                              geometry := emptyPoint |} ] |}
  /\ (forall this rows d e,
         optionalBindings (yasr this) = Some rows ->
         In item rows ->
         In d (detectedColumns (yasr this)) -> colName d = column ->
         leafletLayer emptyPoint = Throw e ->
         exists e', snd (drawOn this) = Throw e').
Proof.
  intros Hc Hdt.
  assert (Hg : geometryOf item column = Ok emptyPoint).
  { rewrite (geometryOf_own item column c Hc).
    rewrite (conversionsAt_unknown (datatype c) Hdt). reflexivity. }
  split; [exact Hg|]. split.
  - unfold createGeojson. simpl. rewrite Hg. reflexivity.
  - intros this rows d e Hrows Hitem Hd Hcol Hleaflet.
    destruct (drawOn_run this) as (_ & _ & _ & Hout & _). cbv zeta in Hout.
    rewrite Hout.
    assert (Hlayer : exists e0, layerOn (yasr this) (colName d) = Throw e0).
    { unfold layerOn, createGeojsonOfResults. rewrite Hrows, Hcol.
      destruct (createGeojson rows column) as [g|e0] eqn:Hcreate;
        [|exists e0; reflexivity].
      simpl. destruct (createGeojson_inv rows column g Hcreate) as [_ Hinv].
      destruct (Forall2_in_l _ _ _ item Hinv Hitem) as (f & Hf & _ & _ & Hgeo).
      apply (geoJsonOn_throw g f e Hf).
      rewrite Hg in Hgeo. injection Hgeo as <-. exact Hleaflet. }
    destruct Hlayer as [e0 He0].
    exact (renderedOn_throw _ _ d e0 Hd He0 []).
Qed.

(** X7. The callback a draw leaves with [setTimeout], run after that draw
    (complete or not), asks the map to recompute its size once and calls
    [fitBounds] once on the layers the group then holds; it ends as that
    [fitBounds] call ends, so it throws when Leaflet refuses the bounds; it
    changes neither the group nor any field outside the map. *)
Theorem deferredOn_after_drawOn (this : GeoPlugin) :
  exists layers,
    resultsGroup (fst (drawOn this)) = Some layers
    /\ snd (deferredOn (fst (drawOn this))) = leafletFit layers
    /\ resultsGroup (fst (deferredOn (fst (drawOn this)))) = Some layers
    /\ resizeCalls (fst (deferredOn (fst (drawOn this))))
       = S (resizeCalls (fst (drawOn this)))
    /\ fitCalls (fst (deferredOn (fst (drawOn this))))
       = (fitCalls (fst (drawOn this))
          ++ [ {| fit_layers := layers; padding := (20, 20)%Z; maxZoom := 14%Z |} ])%list
    /\ sameOutsideSurface (fst (deferredOn (fst (drawOn this)))) (fst (drawOn this)).
Proof.
  destruct (drawOn_run this) as (_ & _ & Hg & _). cbv zeta in Hg.
  unfold resultsGroup in Hg.
  destruct (surface (fst (drawOn this))) as [s'|] eqn:Hs; [|discriminate].
  exists (lg s').
  unfold resultsGroup, resizeCalls, fitCalls, deferredOn, bind, invalidateSize,
    fitBoundsOn, onSurface.
  rewrite Hs. simpl. repeat split; reflexivity.
Qed.

Lemma renderedOn_all (y : Yasr) (rows : list Row) (columns : list Descriptor) :
  optionalBindings y = Some rows ->
  (forall d item, In d columns -> In item rows ->
                  exists g, geometryOf item (colName d) = Ok g
                            /\ leafletLayer g = Ok true) ->
  (forall layers, (exists l, In l layers /\ l <> []) -> leafletFit layers = Ok tt) ->
  forall acc,
    exists ls,
      renderedOn y columns acc = ((acc ++ ls)%list, Ok tt)
      /\ List.length ls = List.length columns
      /\ Forall (fun layer => rowsOf layer = rows) ls.
Proof.
  intros Hrows Hall Hfit.
  induction columns as [|d columns IH]; intros acc.
  - exists []. simpl. rewrite app_nil_r. repeat split. constructor.
  - destruct (createGeojson_ok rows (colName d)) as [fs Hfs].
    { intros item Hin. destruct (Hall d item (or_introl eq_refl) Hin) as (g & Hg & _).
      exists g. exact Hg. }
    destruct (createGeojson_inv rows (colName d) _ Hfs) as [_ Hinv]. simpl in Hinv.
    assert (Hlayer : geoJsonOn {| fc_type := "FeatureCollection"; features := fs |}
                     = Ok (map (fun f => {| shape_feature := f;
                                            popup := popupText (properties f) |}) fs)).
    { apply geoJsonOn_all. simpl. intros f Hf.
      destruct (Forall2_in_r _ _ _ f Hinv Hf) as (item & Hitem & _ & _ & Hgeo).
      destruct (Hall d item (or_introl eq_refl) Hitem) as (g & Hg & Hmade).
      rewrite Hg in Hgeo. injection Hgeo as <-. exact Hmade. }
    set (l := map (fun f => {| shape_feature := f;
                               popup := popupText (properties f) |}) fs) in *.
    assert (Hl : rowsOf l = rows).
    { unfold rowsOf, l. rewrite map_map. simpl.
      apply Forall2_map_eq. revert Hinv. apply Forall2_impl.
      intros item f (_ & Hp & _). exact Hp. }
    destruct (IH (fun d' item Hd' => Hall d' item (or_intror Hd')) (acc ++ [l])%list)
      as (ls & Hls & Hlen & HF).
    exists (l :: ls). cbn [renderedOn]. unfold createGeojsonOfResults.
    rewrite Hrows, Hfs, Hlayer. cbn [features].
    assert (Hgoal : renderedOn y columns (acc ++ [l]) = ((acc ++ l :: ls)%list, Ok tt)).
    { rewrite Hls. rewrite <- app_assoc. reflexivity. }
    split; [|split; [simpl; rewrite Hlen; reflexivity | constructor; assumption]].
    destruct fs as [|f fs']; cbn [List.length Nat.ltb Nat.leb].
    + exact Hgoal.
    + rewrite Hfit; [exact Hgoal|].
      exists l. split; [apply in_or_app; right; left; reflexivity|].
      unfold l. simpl. discriminate.
Qed.

(** X10. When every row converts, for every detected column, to a geometry
    Leaflet makes a layer for, and Leaflet accepts the bounds of a group
    that holds a shape, a draw completes and the Results group holds one
    layer per detected column; each layer has one shape per row, in row
    order, whose properties are the row. *)
Theorem drawOn_one_layer_per_column (this : GeoPlugin) (rows : list Row) :
  optionalBindings (yasr this) = Some rows ->
  (forall d item,
      In d (detectedColumns (yasr this)) -> In item rows ->
      exists g, geometryOf item (colName d) = Ok g /\ leafletLayer g = Ok true) ->
  (forall layers, (exists l, In l layers /\ l <> []) -> leafletFit layers = Ok tt) ->
  exists layers,
    snd (drawOn this) = Ok tt
    /\ resultsGroup (fst (drawOn this)) = Some layers
    /\ List.length layers = List.length (detectedColumns (yasr this))
    /\ Forall (fun layer => rowsOf layer = rows) layers.
Proof.
  intros Hrows Hall Hfit.
  destruct (renderedOn_all (yasr this) rows (detectedColumns (yasr this))
              Hrows Hall Hfit []) as (ls & Hls & Hlen & HF).
  destruct (drawOn_run this) as (_ & _ & Hg & Hout & _). cbv zeta in *.
  rewrite Hls in Hg, Hout. simpl in Hg, Hout.
  exists ls. repeat split; assumption.
Qed.

(** ** A Leaflet that accepts everything

    With a Leaflet that makes a layer for every feature and accepts every
    bounds, the draw with Leaflet's answers is the draw that records the
    plugin's requests. *)

Lemma forOf_ext {A : Type} (f g : A -> M unit) (l : list A) :
  (forall x this, f x this = g x this) ->
  forall this, forOf f l this = forOf g l this.
Proof.
  intros H. induction l as [|x l IH]; intros this.
  - reflexivity.
  - rewrite !forOf_cons, H. destruct (g x this) as [this' [[]|e]]; [apply IH | reflexivity].
Qed.

Lemma drawOn_accepting :
  (forall g, leafletLayer g = Ok true) ->
  (forall layers, leafletFit layers = Ok tt) ->
  forall this, drawOn this = draw this.
Proof.
  intros Hlayer Hfit.
  assert (Hfb : forall this, fitBoundsOn this = fitBounds this).
  { intros this. unfold fitBoundsOn, fitBounds, onSurface.
    destruct (surface this) as [s|]; [rewrite Hfit|]; reflexivity. }
  assert (Hstep : forall d this, renderColumnOn d this = renderColumn d this).
  { intros d this. unfold renderColumnOn, renderColumn, bind, get, lift.
    destruct (createGeojsonOfResults (yasr this) (colName d)) as [g|e]; simpl;
      [|reflexivity].
    rewrite (geoJsonOn_all g (fun f _ => Hlayer (geometry f))), geoJson_run. simpl.
    destruct (addLayer _ this) as [this' [[]|e]]; [|reflexivity].
    destruct (0 <? List.length (features g))%nat; [apply Hfb | reflexivity]. }
  intros this. unfold drawOn, draw, bind.
  destruct (updateColumns this) as [this1 [[]|e]]; [|reflexivity].
  unfold updateMapOn, updateMap, bind, get.
  destruct (match surface this1 with
            | Some _ => ret tt
            | None => modify (set_surface (Some newSurface))
            end this1) as [this2 [[]|e]]; [|reflexivity].
  destruct (appendContainer this2) as [this3 [[]|e]]; [|reflexivity].
  destruct (clearLayers this3) as [this4 [[]|e]]; [|reflexivity].
  rewrite (forOf_ext renderColumnOn renderColumn _ Hstep). reflexivity.
Qed.

End GeoPlugin.

(** ** The statements at sample inputs *)

Lemma canHandleResults_recognised_datatype_witness :
  snd (canHandleResults (fst (constructor (hostWith [placeRow])))) = Ok true
  /\ snd (canHandleResults (fst (constructor (hostWith [])))) = Ok false
  /\ snd (canHandleResults (fst (constructor (hostWith [plainRow])))) = Ok false.
Proof.
  split; [|split].
  - apply (proj1 (canHandleResults_recognised_datatype
                    (fst (constructor (hostWith [placeRow]))))
             placeRow [] "g" (typed "POINT(1 2)" wktLiteral) wktLiteral).
    + reflexivity.
    + reflexivity.
    + reflexivity.
    + left. reflexivity.
  - apply (proj1 (proj2 (canHandleResults_recognised_datatype
                           (fst (constructor (hostWith [])))))).
    reflexivity.
  - apply (proj2 (proj2 (canHandleResults_recognised_datatype
                           (fst (constructor (hostWith [plainRow])))))
             plainRow []).
    + reflexivity.
    + intros k c dt Hc Hdt.
      unfold cellAt, plainRow in Hc. simpl in Hc.
      destruct (String.eqb k "place"); [|discriminate].
      injection Hc as <-. injection Hdt as <-.
      simpl. intros [H | [H | [H | []]]]; discriminate.
Defined.

Lemma updateColumns_total_without_results_witness :
  updateColumns (fst (constructor hostWithoutResults))
  = (set_geometryColumns [] (fst (constructor hostWithoutResults)), Ok tt)
  /\ canHandleResults (fst (constructor hostWithoutResults))
     = (set_geometryColumns [] (fst (constructor hostWithoutResults)), Ok false).
Proof.
  apply (updateColumns_total_without_results (fst (constructor hostWithoutResults))).
  left. reflexivity.
Defined.

(** C9: a plugin built before the host had results, probed once the host
    has them, comes back with another [geometryColumns]. *)
Lemma canHandleResults_writes_geometryColumns :
  geometryColumns (set_yasr (hostWith [placeRow]) (fst (constructor hostWithoutResults)))
  = []
  /\ geometryColumns
       (fst (canHandleResults
               (set_yasr (hostWith [placeRow]) (fst (constructor hostWithoutResults)))))
     = [ {| colName := "g"; colDatatype := Some wktLiteral |} ]
  /\ fst (canHandleResults
            (set_yasr (hostWith [placeRow]) (fst (constructor hostWithoutResults))))
     <> set_yasr (hostWith [placeRow]) (fst (constructor hostWithoutResults)).
Proof.
  split; [reflexivity|]. split; [reflexivity|].
  intros H. apply (f_equal geometryColumns) in H. discriminate H.
Qed.



Lemma popup_truncates_long_values_witness :
  exists lines,
    popup (shapeOf longRow JNull (popupText longRow)) = join "<br>" lines
    /\ Forall2
         (fun k line =>
            exists c shown,
              cellAt longRow k = Some c
              /\ line = "<b>" ++ k ++ ":</b> " ++ shown
              /\ ((120 < String.length (value c))%nat ->
                  exists first rest,
                    value c = first ++ rest
                    /\ String.length first = 120%nat
                    /\ shown = first ++ "...")
              /\ ((String.length (value c) <= 120)%nat -> shown = value c))
         (keys longRow) lines.
Proof.
  apply (popup_truncates_long_values sampleParseWKT sampleCallInherited
           (fst (constructor (hostWith [longRow])))
           [ [ shapeOf longRow JNull (popupText longRow) ] ]
           [ shapeOf longRow JNull (popupText longRow) ]
           (shapeOf longRow JNull (popupText longRow))).
  - vm_compute. reflexivity.
  - left. reflexivity.
  - left. reflexivity.
Defined.

Lemma createGeojson_features_are_rows_witness :
  exists fc,
    createGeojson sampleParseWKT sampleCallInherited [placeRow; brokenWktRow] "g" = Ok fc
    /\ fc_type fc = "FeatureCollection"
    /\ List.length (features fc) = 2%nat
    /\ map properties (features fc) = [placeRow; brokenWktRow]
    /\ Forall (fun f => f_type f = "Feature") (features fc).
Proof.
  destruct (createGeojson_features_are_rows sampleParseWKT sampleCallInherited
              (fst (constructor (hostWith [placeRow; brokenWktRow])))
              [placeRow; brokenWktRow] "g")
    as (Hshape & Hbuilt & _).
  destruct Hbuilt as [fc Hfc].
  { intros item [<- | [<- | []]].
    - exists (typed "POINT(1 2)" wktLiteral). split; [reflexivity|].
      simpl. exists (point 1 2). reflexivity.
    - exists (typed "POINT(" wktLiteral). split; [reflexivity|].
      simpl. exists JNull. reflexivity. }
  exists fc. split; [exact Hfc | exact (Hshape fc Hfc)].
Defined.

Lemma draw_zero_rows_deferred_fit_witness :
  snd (canHandleResults (fst (constructor (hostWith [])))) = Ok false
  /\ snd (draw sampleParseWKT sampleCallInherited (fst (constructor (hostWith []))))
     = Ok tt
  /\ resultsGroup
       (fst (draw sampleParseWKT sampleCallInherited (fst (constructor (hostWith [])))))
     = Some []
  /\ fitCalls
       (fst (draw sampleParseWKT sampleCallInherited (fst (constructor (hostWith [])))))
     = fitCalls (fst (constructor (hostWith [])))
  /\ timeouts
       (fst (draw sampleParseWKT sampleCallInherited (fst (constructor (hostWith [])))))
     = (timeouts (fst (constructor (hostWith []))) ++ [100%Z])%list
  /\ fitCalls
       (fst (deferred
               (fst (draw sampleParseWKT sampleCallInherited
                       (fst (constructor (hostWith [])))))))
     = (fitCalls (fst (constructor (hostWith [])))
        ++ [ {| fit_layers := []; padding := (20, 20)%Z; maxZoom := 14%Z |} ])%list.
Proof.
  apply (draw_zero_rows_deferred_fit sampleParseWKT sampleCallInherited
           (fst (constructor (hostWith [])))).
  reflexivity.
Defined.

Lemma updateColumns_descriptors_witness :
  In {| colName := "g"; colDatatype := Some wktLiteral |}
     (geometryColumns (fst (updateColumns (fst (constructor (hostWith [placeRow])))))).
Proof.
  apply (proj2 (updateColumns_descriptors (fst (constructor (hostWith [placeRow])))
                  "g" (Some wktLiteral))).
  exists (typed "POINT(1 2)" wktLiteral), wktLiteral.
  repeat split; try reflexivity. left. reflexivity.
Defined.

Lemma updateColumns_keeps_key_order_witness :
  NoDup (map colName
           (geometryColumns
              (fst (updateColumns (fst (constructor (hostWith [twoGeometriesRow]))))))).
Proof.
  apply (proj2 (updateColumns_keeps_key_order
                  (fst (constructor (hostWith [twoGeometriesRow]))))).
  simpl. repeat constructor; simpl; intuition discriminate.
Defined.

Lemma draw_without_columns_witness :
  snd (draw sampleParseWKT sampleCallInherited (fst (constructor (hostWith [plainRow]))))
  = Ok tt
  /\ resultsGroup
       (fst (draw sampleParseWKT sampleCallInherited
               (fst (constructor (hostWith [plainRow])))))
     = Some []
  /\ fitCalls
       (fst (draw sampleParseWKT sampleCallInherited
               (fst (constructor (hostWith [plainRow])))))
     = fitCalls (fst (constructor (hostWith [plainRow])))
  /\ timeouts
       (fst (draw sampleParseWKT sampleCallInherited
               (fst (constructor (hostWith [plainRow])))))
     = (timeouts (fst (constructor (hostWith [plainRow]))) ++ [100%Z])%list.
Proof.
  apply (draw_without_columns sampleParseWKT sampleCallInherited
           (fst (constructor (hostWith [plainRow])))).
  reflexivity.
Defined.

Lemma createGeojson_unbound_cell_witness :
  createGeojson sampleParseWKT sampleCallInherited [placeRow; plainRow] "g"
  = Throw TypeError
  /\ (exists e,
         snd (draw sampleParseWKT sampleCallInherited
                (fst (constructor (hostWith [placeRow; plainRow]))))
         = Throw e)
  /\ timeouts
       (fst (draw sampleParseWKT sampleCallInherited
               (fst (constructor (hostWith [placeRow; plainRow])))))
     = timeouts (fst (constructor (hostWith [placeRow; plainRow]))).
Proof.
  destruct (createGeojson_unbound_cell sampleParseWKT sampleCallInherited
              [placeRow] [] plainRow "g") as [Hthrow Hdraw].
  - intros r [<- | []]. exists (point 1 2). reflexivity.
  - reflexivity.
  - reflexivity.
  - split; [exact Hthrow|].
    apply (Hdraw (fst (constructor (hostWith [placeRow; plainRow])))
             {| colName := "g"; colDatatype := Some wktLiteral |}).
    + reflexivity.
    + left. reflexivity.
    + reflexivity.
Defined.

(** ** The earlier plugin *)

Section EarlierPlugin.

Variable parseWKT : jsval -> outcome jsval.
Variable callInherited : string -> jsval -> outcome jsval.

Lemma prefix_append (sub s : string) :
  prefix sub s = true <-> exists post, s = sub ++ post.
Proof.
  revert s. induction sub as [|a sub IH]; intros s.
  - split; [intros _; exists s; reflexivity | intros _; destruct s; reflexivity].
  - destruct s as [|b s]; simpl.
    + split; [discriminate | intros [post H]; discriminate].
    + destruct (ascii_dec a b) as [->|Hne].
      * rewrite IH. split; intros [post H]; exists post; congruence.
      * split; [discriminate | intros [post H]; congruence].
Qed.

Lemma includes_append (s sub : string) :
  includes s sub = true <-> exists pre post, s = pre ++ sub ++ post.
Proof.
  induction s as [|c s IH]; cbn [includes].
  - destruct (prefix sub "") eqn:E.
    + split; [|reflexivity]. intros _. apply prefix_append in E.
      destruct E as [post E]. exists "", post. exact E.
    + split; [discriminate|]. intros (pre & post & H).
      destruct pre; [|discriminate]. simpl in H.
      assert (prefix sub "" = true) by (apply prefix_append; exists post; exact H).
      congruence.
  - destruct (prefix sub (String c s)) eqn:E.
    + split; [|reflexivity]. intros _. apply prefix_append in E.
      destruct E as [post E]. exists "", post. exact E.
    + rewrite IH. split.
      * intros (pre & post & H). exists (String c pre), post. simpl. congruence.
      * intros (pre & post & H). destruct pre as [|c' pre]; simpl in H.
        -- assert (prefix sub (String c s) = true)
             by (apply prefix_append; exists post; exact H).
           congruence.
        -- exists pre, post. congruence.
Qed.

Lemma find_first {A : Type} (p : A -> bool) (before after : list A) (x : A) :
  (forall a, In a before -> p a = false) -> p x = true ->
  find p (before ++ x :: after) = Some x.
Proof.
  intros Hb Hx. induction before as [|a before IH]; simpl.
  - rewrite Hx. reflexivity.
  - rewrite (Hb a (or_introl eq_refl)). apply IH.
    intros a' Ha'. apply Hb. right. exact Ha'.
Qed.

Lemma find_nothing {A : Type} (p : A -> bool) (l : list A) :
  (forall a, In a l -> p a = false) -> find p l = None.
Proof.
  intros H. induction l as [|a l IH]; simpl.
  - reflexivity.
  - rewrite (H a (or_introl eq_refl)). apply IH.
    intros a' Ha'. apply H. right. exact Ha'.
Qed.

Lemma mapO_ext_in {A B : Type} (f g : A -> outcome B) (l : list A) :
  (forall x, In x l -> f x = g x) -> mapO f l = mapO g l.
Proof.
  induction l as [|x l IH]; intros H; simpl.
  - reflexivity.
  - rewrite (H x (or_introl eq_refl)), IH; [reflexivity|].
    intros y Hy. apply H. right. exact Hy.
Qed.

Lemma earlier_onEachFeature_run (f : Feature) :
  Earlier.onEachFeature f = Ok (Earlier.popupText (properties f)).
Proof.
  unfold Earlier.onEachFeature, Earlier.popupText.
  rewrite (mapO_ok _ (fun k => "<b>" ++ k ++ ":</b> " ++ textAt (properties f) k)).
  - reflexivity.
  - intros k Hk. destruct (ownProperty_key (properties f) k Hk) as [c Hc].
    unfold Earlier.popupLine. rewrite (getProperty_own _ k c Hc).
    unfold textAt, cellAt. rewrite Hc. reflexivity.
Qed.

Lemma earlier_geoJson_run (geojson : FeatureCollection) :
  Earlier.geoJson geojson
  = Ok (map (fun f => {| shape_feature := f;
                         popup := Earlier.popupText (properties f) |})
            (features geojson)).
Proof.
  unfold Earlier.geoJson. apply mapO_ok. intros f _.
  rewrite earlier_onEachFeature_run. reflexivity.
Qed.

(** What a draw does, by the three things it reads. *)
Lemma earlier_draw_run (this : Earlier.GeoPlugin) :
  let s := orElse (Earlier.surface this) Earlier.newSurface in
  let attached :=
    Earlier.set_yasr
      {| Earlier.results := Earlier.results (Earlier.yasr this);
         Earlier.resultsEl :=
           appendChild (container s) (Earlier.resultsEl (Earlier.yasr this)) |}
      (Earlier.set_surface (Some s) this) in
  Earlier.draw parseWKT this
  = match Earlier.headVars (Earlier.yasr this) with
    | Throw e => (attached, Throw e)
    | Ok columns =>
        match Earlier.resultsBindings (Earlier.yasr this) with
        | Throw e => (attached, Throw e)
        | Ok rows =>
            match Earlier.createGeojson parseWKT rows (find Earlier.namesWkt columns) with
            | Throw e => (attached, Throw e)
            | Ok geojson =>
                let layer :=
                  map (fun f => {| shape_feature := f;
                                   popup := Earlier.popupText (properties f) |})
                      (features geojson) in
                let added := set_lg [layer] s in
                (Earlier.set_timeouts (Earlier.timeouts this ++ [100%Z])
                   (Earlier.set_surface
                      (Some (if (0 <? List.length (features geojson))%nat
                             then Earlier.fitBounds added else added))
                      attached),
                 Ok tt)
            end
        end
    end.
Proof.
  cbv zeta. unfold Earlier.draw, Earlier.render.
  destruct (Earlier.surface this) as [s|]; simpl orElse;
    change (Earlier.headVars (Earlier.yasr (Earlier.set_yasr _ _)))
      with (Earlier.headVars (Earlier.yasr this));
    change (Earlier.resultsBindings (Earlier.yasr (Earlier.set_yasr _ _)))
      with (Earlier.resultsBindings (Earlier.yasr this));
    destruct (Earlier.headVars (Earlier.yasr this)); try reflexivity;
    destruct (Earlier.resultsBindings (Earlier.yasr this)); try reflexivity;
    destruct (Earlier.createGeojson parseWKT a0 (find Earlier.namesWkt a));
    try reflexivity;
    rewrite earlier_geoJson_run; reflexivity.
Qed.

(** X13. The earlier probe answers true exactly when [head.vars] lists a
    column whose name contains [WKT]. *)
Theorem earlier_canHandleResults_by_name (this : Earlier.GeoPlugin) :
  Earlier.canHandleResults this = Ok true
  <-> exists columns col pre post,
        Earlier.headVars (Earlier.yasr this) = Ok columns
        /\ In col columns
        /\ col = pre ++ "WKT" ++ post.
Proof.
  unfold Earlier.canHandleResults.
  destruct (Earlier.headVars (Earlier.yasr this)) as [columns|e]; simpl.
  - split.
    + intros H. injection H as H. apply existsb_exists in H.
      destruct H as (col & Hin & Hcol). apply includes_append in Hcol.
      destruct Hcol as (pre & post & Hcol).
      exists columns, col, pre, post. repeat split; assumption.
    + intros (columns' & col & pre & post & Heq & Hin & Hcol).
      injection Heq as <-. f_equal. apply existsb_exists.
      exists col. split; [exact Hin|]. apply includes_append.
      exists pre, post. exact Hcol.
  - split; [discriminate|].
    intros (columns' & col & pre & post & Heq & _). discriminate.
Qed.

(** X14. When the host has no results object, or the results have no JSON
    body, no [head] or no [vars], the earlier probe throws a [TypeError],
    and so does a draw, which leaves no callback and no bounds-fit call. *)
Theorem earlier_throws_without_results (this : Earlier.GeoPlugin) :
  Earlier.results (Earlier.yasr this) = None
  \/ (exists r, Earlier.results (Earlier.yasr this) = Some r /\ Earlier.json r = None)
  \/ (exists r j, Earlier.results (Earlier.yasr this) = Some r
                  /\ Earlier.json r = Some j /\ Earlier.head j = None)
  \/ (exists r j h, Earlier.results (Earlier.yasr this) = Some r
                    /\ Earlier.json r = Some j /\ Earlier.head j = Some h
                    /\ Earlier.vars h = None) ->
  Earlier.canHandleResults this = Throw TypeError
  /\ snd (Earlier.draw parseWKT this) = Throw TypeError
  /\ Earlier.timeouts (fst (Earlier.draw parseWKT this)) = Earlier.timeouts this
  /\ Earlier.fitCalls (fst (Earlier.draw parseWKT this)) = Earlier.fitCalls this.
Proof.
  intros H.
  assert (Hvars : Earlier.headVars (Earlier.yasr this) = Throw TypeError).
  { unfold Earlier.headVars.
    destruct H as [H | [(r & H1 & H2) | [(r & j & H1 & H2 & H3)
                     | (r & j & h & H1 & H2 & H3 & H4)]]].
    - rewrite H. reflexivity.
    - rewrite H1, H2. reflexivity.
    - rewrite H1, H2, H3. reflexivity.
    - rewrite H1, H2, H3, H4. reflexivity. }
  pose proof (earlier_draw_run this) as Hdraw. cbv zeta in Hdraw.
  rewrite Hvars in Hdraw. rewrite Hdraw.
  unfold Earlier.canHandleResults. rewrite Hvars.
  unfold Earlier.fitCalls. simpl.
  destruct (Earlier.surface this); repeat split; reflexivity.
Qed.

(** X16. When no column name contains [WKT] and the first row has no
    column called [undefined], an earlier draw throws a [TypeError] before
    it clears the Results group: on a plugin that has drawn before, the
    layers of the previous result set stay in the group, and no callback is
    left. *)
Theorem earlier_draw_without_wkt_column
    (this : Earlier.GeoPlugin) (s : Surface) (columns : list string)
    (item : Row) (rest : list Row) :
  Earlier.surface this = Some s ->
  Earlier.headVars (Earlier.yasr this) = Ok columns ->
  (forall c, In c columns -> includes c "WKT" = false) ->
  Earlier.resultsBindings (Earlier.yasr this) = Ok (item :: rest) ->
  cellAt item "undefined" = None ->
  Earlier.canHandleResults this = Ok false
  /\ snd (Earlier.draw parseWKT this) = Throw TypeError
  /\ Earlier.resultsGroup (fst (Earlier.draw parseWKT this)) = Some (lg s)
  /\ Earlier.fitCalls (fst (Earlier.draw parseWKT this)) = Earlier.fitCalls this
  /\ Earlier.timeouts (fst (Earlier.draw parseWKT this)) = Earlier.timeouts this.
Proof.
  intros Hs Hvars Hnone Hrows Hcell.
  pose proof (earlier_draw_run this) as Hdraw. cbv zeta in Hdraw.
  rewrite Hvars, Hrows in Hdraw.
  rewrite (find_nothing Earlier.namesWkt columns Hnone) in Hdraw.
  assert (Hthrow : Earlier.createGeojson parseWKT (item :: rest) None = Throw TypeError).
  { unfold Earlier.createGeojson. simpl. unfold getProperty.
    unfold cellAt in Hcell. rewrite Hcell. reflexivity. }
  rewrite Hthrow in Hdraw. rewrite Hdraw.
  unfold Earlier.canHandleResults, Earlier.resultsGroup, Earlier.fitCalls.
  rewrite Hvars, Hs. simpl. repeat split.
  f_equal. destruct (existsb Earlier.namesWkt columns) eqn:E; [|reflexivity].
  apply existsb_exists in E. destruct E as (c & Hin & Hc).
  unfold Earlier.namesWkt in Hc. rewrite (Hnone c Hin) in Hc. discriminate.
Qed.

(** X17. On a result set without rows an earlier draw completes whatever
    the columns are called: it replaces the content of the Results group by
    one empty layer, makes no bounds-fit call and leaves one callback. *)
Theorem earlier_draw_no_rows (this : Earlier.GeoPlugin) (columns : list string) :
  Earlier.headVars (Earlier.yasr this) = Ok columns ->
  Earlier.resultsBindings (Earlier.yasr this) = Ok [] ->
  snd (Earlier.draw parseWKT this) = Ok tt
  /\ Earlier.resultsGroup (fst (Earlier.draw parseWKT this)) = Some [ [] ]
  /\ Earlier.fitCalls (fst (Earlier.draw parseWKT this)) = Earlier.fitCalls this
  /\ Earlier.timeouts (fst (Earlier.draw parseWKT this))
     = (Earlier.timeouts this ++ [100%Z])%list.
Proof.
  intros Hvars Hrows.
  pose proof (earlier_draw_run this) as Hdraw. cbv zeta in Hdraw.
  rewrite Hvars, Hrows in Hdraw. simpl in Hdraw. rewrite Hdraw.
  unfold Earlier.resultsGroup, Earlier.fitCalls. simpl.
  destruct (Earlier.surface this); repeat split; reflexivity.
Qed.

(** X18. On rows that all bind the column to a WKT-family cell, the
    earlier [createGeojson] and the later one return the same collection or
    throw the same error. *)
Theorem createGeojson_versions_agree (rows : list Row) (col : string) :
  (forall item, In item rows ->
                exists c, cellAt item col = Some c /\ wktFamily c) ->
  Earlier.createGeojson parseWKT rows (Some col)
  = createGeojson parseWKT callInherited rows col.
Proof.
  intros Hall. unfold Earlier.createGeojson, createGeojson. f_equal.
  apply mapO_ext_in. intros item Hin.
  destruct (Hall item Hin) as (c & Hc & Hw).
  rewrite (geometryOf_wkt parseWKT callInherited item col c Hc Hw).
  simpl. rewrite (getProperty_own item col c Hc). reflexivity.
Qed.

(** *** The earlier draw with Leaflet's answers *)

Variable leafletLayer : jsval -> outcome bool.
Variable leafletFit : list GeoJsonLayer -> outcome unit.

Lemma earlier_createGeojson_ok (rows : list Row) (col : string) :
  (forall item, In item rows ->
                exists c g, cellAt item col = Some c
                            /\ parseWKT (JStr (value c)) = Ok g) ->
  exists fs,
    Earlier.createGeojson parseWKT rows (Some col)
    = Ok {| fc_type := "FeatureCollection"; features := fs |}
    /\ Forall2 (fun item f =>
                  properties f = item
                  /\ exists c, cellAt item col = Some c
                               /\ parseWKT (JStr (value c)) = Ok (geometry f))
               rows fs.
Proof.
  intros Hall. unfold Earlier.createGeojson.
  induction rows as [|item rows IH].
  - exists []. split; [reflexivity | constructor].
  - destruct (Hall item (or_introl eq_refl)) as (c & g & Hc & Hg).
    destruct IH as (fs & Hfs & HF); [intros i Hi; apply Hall; right; exact Hi|].
    exists ({| f_type := "Feature"; properties := item; geometry := g |} :: fs).
    split.
    + simpl. rewrite (getProperty_own item col c Hc). simpl. rewrite Hg. simpl.
      simpl in Hfs. destruct (mapO _ rows) as [fs'|e]; simpl in Hfs; [|discriminate].
      injection Hfs as ->. reflexivity.
    + constructor; [|exact HF]. split; [reflexivity|]. exists c. split; assumption.
Qed.

Lemma earlier_geoJsonOn_all (geojson : FeatureCollection) :
  (forall f, In f (features geojson) -> leafletLayer (geometry f) = Ok true) ->
  Earlier.geoJsonOn leafletLayer geojson
  = Ok (map (fun f => {| shape_feature := f;
                         popup := Earlier.popupText (properties f) |})
            (features geojson)).
Proof.
  intros H. unfold Earlier.geoJsonOn.
  rewrite (mapO_ok _ (fun f => [ {| shape_feature := f;
                                    popup := Earlier.popupText (properties f) |} ])).
  - simpl. f_equal. apply concat_singletons.
  - intros f Hf. rewrite (H f Hf). simpl. rewrite earlier_onEachFeature_run.
    reflexivity.
Qed.

(** X15. When the first column of [head.vars] whose name contains [WKT] is
    [col], every row binds [col], the parser returns on each cell's text a
    geometry Leaflet makes a layer for, and Leaflet accepts the bounds of a
    group that holds a shape, an earlier draw completes: the Results group
    holds one layer with one shape per row, in row order, whose geometry is
    the parser's answer for the cell and whose popup lists every value in
    full; [fitBounds] is called once, with maximum zoom 12, when there is a
    row and not otherwise; one callback is left. *)
Theorem earlier_drawOn_first_wkt_column
    (this : Earlier.GeoPlugin) (before after : list string) (col : string)
    (rows : list Row) :
  Earlier.headVars (Earlier.yasr this) = Ok (before ++ col :: after)%list ->
  (forall c, In c before -> includes c "WKT" = false) ->
  includes col "WKT" = true ->
  Earlier.resultsBindings (Earlier.yasr this) = Ok rows ->
  (forall item, In item rows ->
                exists c g, cellAt item col = Some c
                            /\ parseWKT (JStr (value c)) = Ok g
                            /\ leafletLayer g = Ok true) ->
  (forall layers, (exists l, In l layers /\ l <> []) -> leafletFit layers = Ok tt) ->
  exists layer,
    snd (Earlier.drawOn parseWKT leafletLayer leafletFit this) = Ok tt
    /\ Earlier.resultsGroup (fst (Earlier.drawOn parseWKT leafletLayer leafletFit this))
       = Some [layer]
    /\ Forall2 (fun item sh =>
                  properties (shape_feature sh) = item
                  /\ popup sh = Earlier.popupText item
                  /\ exists c, cellAt item col = Some c
                               /\ parseWKT (JStr (value c))
                                  = Ok (geometry (shape_feature sh)))
               rows layer
    /\ Earlier.fitCalls (fst (Earlier.drawOn parseWKT leafletLayer leafletFit this))
       = (Earlier.fitCalls this
          ++ match rows with
             | [] => []
             | _ :: _ => [ {| fit_layers := [layer]; padding := (20, 20)%Z;
                              maxZoom := 12%Z |} ]
             end)%list
    /\ Earlier.timeouts (fst (Earlier.drawOn parseWKT leafletLayer leafletFit this))
       = (Earlier.timeouts this ++ [100%Z])%list.
Proof.
  intros Hvars Hbefore Hcol Hrows Hall Hfit.
  destruct (earlier_createGeojson_ok rows col) as (fs & Hfs & HF).
  { intros item Hin. destruct (Hall item Hin) as (c & g & Hc & Hg & _).
    exists c, g. split; assumption. }
  assert (Hlayer : Earlier.geoJsonOn leafletLayer
                     {| fc_type := "FeatureCollection"; features := fs |}
                   = Ok (map (fun f => {| shape_feature := f;
                                          popup := Earlier.popupText (properties f) |})
                             fs)).
  { apply earlier_geoJsonOn_all. simpl. intros f Hf.
    destruct (Forall2_in_r _ _ _ f HF Hf) as (item & Hitem & _ & c & Hc & Hgeo).
    destruct (Hall item Hitem) as (c' & g & Hc' & Hg & Hmade).
    rewrite Hc in Hc'. injection Hc' as <-.
    rewrite Hg in Hgeo. injection Hgeo as <-. exact Hmade. }
  set (layer := map (fun f => {| shape_feature := f;
                                 popup := Earlier.popupText (properties f) |}) fs) in *.
  assert (Hshapes : Forall2 (fun item sh =>
                    properties (shape_feature sh) = item
                    /\ popup sh = Earlier.popupText item
                    /\ exists c, cellAt item col = Some c
                                 /\ parseWKT (JStr (value c))
                                    = Ok (geometry (shape_feature sh)))
                 rows layer).
  { unfold layer. clear Hlayer Hfs Hrows Hall layer.
    induction HF as [|item f rows' fs' (Hp & Hg) _ IH]; simpl.
    - constructor.
    - constructor.
      + simpl. rewrite Hp. repeat split. exact Hg.
      + exact IH. }
  exists layer.
  unfold Earlier.drawOn, Earlier.renderOn.
  change (Earlier.headVars (Earlier.yasr (Earlier.set_yasr _ _)))
    with (Earlier.headVars (Earlier.yasr this)).
  change (Earlier.resultsBindings (Earlier.yasr (Earlier.set_yasr _ _)))
    with (Earlier.resultsBindings (Earlier.yasr this)).
  rewrite Hvars, Hrows.
  rewrite (find_first Earlier.namesWkt before after col Hbefore Hcol).
  rewrite Hfs, Hlayer. cbn [features].
  unfold Earlier.resultsGroup, Earlier.fitCalls.
  destruct HF as [|item f rows' fs' _ _].
  - simpl. repeat split; try assumption.
    destruct (Earlier.surface this); simpl; rewrite ?app_nil_r; reflexivity.
  - cbn [List.length Nat.ltb Nat.leb]. cbn [lg set_lg app].
    rewrite Hfit.
    + simpl. repeat split; try assumption.
      destruct (Earlier.surface this); reflexivity.
    + exists layer. split; [left; reflexivity|]. unfold layer. simpl. discriminate.
Qed.

End EarlierPlugin.

(** ** The earlier plugin at sample inputs *)

Lemma earlier_canHandleResults_by_name_witness :
  Earlier.canHandleResults
    (Earlier.constructor (Earlier.hostWith ["place"; "geoWKT"] [wktRow]))
  = Ok true.
Proof.
  apply (proj2 (earlier_canHandleResults_by_name
                  (Earlier.constructor (Earlier.hostWith ["place"; "geoWKT"] [wktRow])))).
  exists ["place"; "geoWKT"], "geoWKT", "geo", "".
  split; [reflexivity|]. split; [right; left; reflexivity | reflexivity].
Defined.

Lemma earlier_throws_without_results_witness :
  Earlier.canHandleResults (Earlier.constructor Earlier.hostWithoutResults)
  = Throw TypeError
  /\ snd (Earlier.draw sampleParseWKT (Earlier.constructor Earlier.hostWithoutResults))
     = Throw TypeError
  /\ Earlier.timeouts
       (fst (Earlier.draw sampleParseWKT (Earlier.constructor Earlier.hostWithoutResults)))
     = Earlier.timeouts (Earlier.constructor Earlier.hostWithoutResults)
  /\ Earlier.fitCalls
       (fst (Earlier.draw sampleParseWKT (Earlier.constructor Earlier.hostWithoutResults)))
     = Earlier.fitCalls (Earlier.constructor Earlier.hostWithoutResults).
Proof.
  apply (earlier_throws_without_results sampleParseWKT
           (Earlier.constructor Earlier.hostWithoutResults)).
  left. reflexivity.
Defined.

Lemma earlier_draw_without_wkt_column_witness :
  Earlier.canHandleResults
    (Earlier.set_yasr (Earlier.hostWith ["place"] [placeOnlyRow])
       (fst (Earlier.draw sampleParseWKT
               (Earlier.constructor (Earlier.hostWith ["place"; "geoWKT"] [wktRow])))))
  = Ok false
  /\ snd (Earlier.draw sampleParseWKT
            (Earlier.set_yasr (Earlier.hostWith ["place"] [placeOnlyRow])
               (fst (Earlier.draw sampleParseWKT
                       (Earlier.constructor
                          (Earlier.hostWith ["place"; "geoWKT"] [wktRow]))))))
     = Throw TypeError
  /\ Earlier.resultsGroup
       (fst (Earlier.draw sampleParseWKT
               (Earlier.set_yasr (Earlier.hostWith ["place"] [placeOnlyRow])
                  (fst (Earlier.draw sampleParseWKT
                          (Earlier.constructor
                             (Earlier.hostWith ["place"; "geoWKT"] [wktRow])))))))
     = Some [ [ shapeOf wktRow (point 1 2)
                  "<b>place:</b> Brussels<br><b>geoWKT:</b> POINT(1 2)" ] ].
Proof.
  destruct (earlier_draw_without_wkt_column sampleParseWKT
              (Earlier.set_yasr (Earlier.hostWith ["place"] [placeOnlyRow])
                 (fst (Earlier.draw sampleParseWKT
                         (Earlier.constructor
                            (Earlier.hostWith ["place"; "geoWKT"] [wktRow])))))
              (orElse
                 (Earlier.surface
                    (fst (Earlier.draw sampleParseWKT
                            (Earlier.constructor
                               (Earlier.hostWith ["place"; "geoWKT"] [wktRow])))))
                 Earlier.newSurface)
              ["place"] placeOnlyRow [])
    as (Hprobe & Hthrow & Hgroup & _).
  - reflexivity.
  - reflexivity.
  - intros c [<- | []]. reflexivity.
  - reflexivity.
  - reflexivity.
  - split; [exact Hprobe|]. split; [exact Hthrow | exact Hgroup].
Defined.

Lemma earlier_draw_no_rows_witness :
  snd (Earlier.draw sampleParseWKT (Earlier.constructor (Earlier.hostWith ["place"] [])))
  = Ok tt
  /\ Earlier.resultsGroup
       (fst (Earlier.draw sampleParseWKT
               (Earlier.constructor (Earlier.hostWith ["place"] []))))
     = Some [ [] ]
  /\ Earlier.fitCalls
       (fst (Earlier.draw sampleParseWKT
               (Earlier.constructor (Earlier.hostWith ["place"] []))))
     = Earlier.fitCalls (Earlier.constructor (Earlier.hostWith ["place"] []))
  /\ Earlier.timeouts
       (fst (Earlier.draw sampleParseWKT
               (Earlier.constructor (Earlier.hostWith ["place"] []))))
     = (Earlier.timeouts (Earlier.constructor (Earlier.hostWith ["place"] []))
        ++ [100%Z])%list.
Proof.
  apply (earlier_draw_no_rows sampleParseWKT
           (Earlier.constructor (Earlier.hostWith ["place"] [])) ["place"]).
  - reflexivity.
  - reflexivity.
Defined.

Lemma createGeojson_versions_agree_witness :
  Earlier.createGeojson sampleParseWKT [placeRow; brokenWktRow] (Some "g")
  = createGeojson sampleParseWKT sampleCallInherited [placeRow; brokenWktRow] "g".
Proof.
  apply (createGeojson_versions_agree sampleParseWKT sampleCallInherited
           [placeRow; brokenWktRow] "g").
  intros item [<- | [<- | []]].
  - exists (typed "POINT(1 2)" wktLiteral). split; [reflexivity | left; reflexivity].
  - exists (typed "POINT(" wktLiteral). split; [reflexivity | left; reflexivity].
Defined.

(** ** The draw with Leaflet's answers at sample inputs *)



(** C8: a cell of datatype [xsd:string] in a detected column is converted to
    the empty point, Leaflet throws on it, and the draw throws; nothing is
    rendered, the well-formed row included. *)
Lemma unknown_datatype_surfaces_in_draw :
  geometryOf sampleParseWKT sampleCallInherited mixedRow "g" = Ok emptyPoint
  /\ snd (drawOn sampleParseWKT sampleCallInherited sampleLeafletLayer
            sampleLeafletFit
            (fst (constructor (hostWith [placeRow; mixedRow]))))
     = Throw (HostError "Invalid LatLng object: (undefined, undefined)")
  /\ resultsGroup
       (fst (drawOn sampleParseWKT sampleCallInherited sampleLeafletLayer
               sampleLeafletFit
               (fst (constructor (hostWith [placeRow; mixedRow])))))
     = Some [].
Proof.
  repeat split; reflexivity.
Qed.

Lemma unknown_datatype_empty_point_unguarded_witness :
  geometryOf sampleParseWKT sampleCallInherited mixedRow "g" = Ok emptyPoint
  /\ createGeojson sampleParseWKT sampleCallInherited [mixedRow] "g"
     = Ok {| fc_type := "FeatureCollection";
             features := [ {| f_type := "Feature"; properties := mixedRow;
                              geometry := emptyPoint |} ] |}
  /\ (exists e',
         snd (drawOn sampleParseWKT sampleCallInherited sampleLeafletLayer
                sampleLeafletFit
                (fst (constructor (hostWith [placeRow; mixedRow]))))
         = Throw e').
Proof.
  destruct (unknown_datatype_empty_point_unguarded sampleParseWKT sampleCallInherited
              sampleLeafletLayer sampleLeafletFit
              mixedRow "g" (typed "somewhere" xsdString))
    as (Hg & Hcreate & Hdraw).
  - reflexivity.
  - intros dt Hdt. injection Hdt as <-. split.
    + reflexivity.
    + simpl. intros [H | [H | [H | []]]]; discriminate.
  - split; [exact Hg|]. split; [exact Hcreate|].
    apply (Hdraw (fst (constructor (hostWith [placeRow; mixedRow])))
             [placeRow; mixedRow]
             {| colName := "g"; colDatatype := Some wktLiteral |}
             (HostError "Invalid LatLng object: (undefined, undefined)")).
    + reflexivity.
    + right. left. reflexivity.
    + left. reflexivity.
    + reflexivity.
    + reflexivity.
Defined.

Lemma drawOn_one_layer_per_column_witness :
  exists layers,
    snd (drawOn sampleParseWKT sampleCallInherited sampleLeafletLayer sampleLeafletFit
           (fst (constructor (hostWith [twoGeometriesRow; twoGeometriesRow]))))
    = Ok tt
    /\ resultsGroup
         (fst (drawOn sampleParseWKT sampleCallInherited sampleLeafletLayer
                 sampleLeafletFit
                 (fst (constructor (hostWith [twoGeometriesRow; twoGeometriesRow])))))
       = Some layers
    /\ List.length layers
       = List.length (detectedColumns (hostWith [twoGeometriesRow; twoGeometriesRow]))
    /\ Forall (fun layer => rowsOf layer = [twoGeometriesRow; twoGeometriesRow]) layers.
Proof.
  apply (drawOn_one_layer_per_column sampleParseWKT sampleCallInherited
           sampleLeafletLayer sampleLeafletFit
           (fst (constructor (hostWith [twoGeometriesRow; twoGeometriesRow])))
           [twoGeometriesRow; twoGeometriesRow]).
  - reflexivity.
  - intros d item Hd Hin.
    assert (Hitem : item = twoGeometriesRow)
      by (destruct Hin as [<- | [<- | []]]; reflexivity).
    rewrite Hitem.
    destruct Hd as [<- | [<- | []]]; exists (point 1 2); split; reflexivity.
  - intros layers (l & Hin & Hne). unfold sampleLeafletFit.
    assert (H : existsb (fun l => negb (isEmptyList l)) layers = true).
    { apply existsb_exists. exists l. split; [exact Hin|].
      destruct l; [congruence | reflexivity]. }
    rewrite H. reflexivity.
Defined.

Lemma earlier_drawOn_first_wkt_column_witness :
  exists layer,
    snd (Earlier.drawOn sampleParseWKT sampleLeafletLayer sampleLeafletFit
           (Earlier.constructor (Earlier.hostWith ["place"; "geoWKT"; "WKT2"] [wktRow])))
    = Ok tt
    /\ Earlier.resultsGroup
         (fst (Earlier.drawOn sampleParseWKT sampleLeafletLayer sampleLeafletFit
                 (Earlier.constructor
                    (Earlier.hostWith ["place"; "geoWKT"; "WKT2"] [wktRow]))))
       = Some [layer]
    /\ Forall2 (fun item sh =>
                  properties (shape_feature sh) = item
                  /\ popup sh = Earlier.popupText item
                  /\ exists c, cellAt item "geoWKT" = Some c
                               /\ sampleParseWKT (JStr (value c))
                                  = Ok (geometry (shape_feature sh)))
               [wktRow] layer
    /\ Earlier.fitCalls
         (fst (Earlier.drawOn sampleParseWKT sampleLeafletLayer sampleLeafletFit
                 (Earlier.constructor
                    (Earlier.hostWith ["place"; "geoWKT"; "WKT2"] [wktRow]))))
       = [ {| fit_layers := [layer]; padding := (20, 20)%Z; maxZoom := 12%Z |} ]
    /\ Earlier.timeouts
         (fst (Earlier.drawOn sampleParseWKT sampleLeafletLayer sampleLeafletFit
                 (Earlier.constructor
                    (Earlier.hostWith ["place"; "geoWKT"; "WKT2"] [wktRow]))))
       = [100%Z].
Proof.
  apply (earlier_drawOn_first_wkt_column sampleParseWKT sampleLeafletLayer
           sampleLeafletFit
           (Earlier.constructor (Earlier.hostWith ["place"; "geoWKT"; "WKT2"] [wktRow]))
           ["place"] ["WKT2"] "geoWKT" [wktRow]).
  - reflexivity.
  - intros c [<- | []]. reflexivity.
  - reflexivity.
  - reflexivity.
  - intros item [<- | []].
    exists (typed "POINT(1 2)" wktLiteral), (point 1 2). repeat split; reflexivity.
  - intros layers (l & Hin & Hne). unfold sampleLeafletFit.
    assert (H : existsb (fun l => negb (isEmptyList l)) layers = true).
    { apply existsb_exists. exists l. split; [exact Hin|].
      destruct l; [congruence | reflexivity]. }
    rewrite H. reflexivity.
Defined.
